(** * ConfidentialRiskAssessment: a shallow embedding of the contract

    The contract [ConfidentialRiskAssessment] (Solidity ^0.8.24) is embedded
    as pure functions over an explicit contract storage.  Every external
    function becomes a transaction in a small state-and-revert monad: it either
    reverts (the storage is left as it was) or returns the new storage
    together with the events it emitted.

    - unsigned integers are [Z]; checked arithmetic is written out where a
      counter of the contract can reach the end of its type
      ([currentAssessmentId++] on a [uint32] panics at [2^32 - 1]);
    - [mapping]s are [gmap]s read with the all-zero default of Solidity;
    - the FHE library the contract imports ([FHE.randEuint8], [FHE.asEuintN],
      [FHE.allow], [FHE.requestDecryption], [FHE.checkSignatures]) is not part
      of the contract: it is an interface ([FHELib]) the development is
      parametric in, and so is [keccak256] ([EVM]). *)

From Stdlib Require Import ZArith Lia List Bool String.
From stdpp Require Import base gmap.
Import ListNotations.
Local Open Scope Z_scope.

(** ** Basic types *)

(** [address] is a 160-bit unsigned integer, an encrypted handle
    ([euint8], [euint16], [euint32]) is a [bytes32], and [bytes] is a byte
    string. *)
Definition address := Z.
Definition handle := Z.
Definition bytes := list Byte.byte.

Definition UINT32_MAX : Z := 2 ^ 32 - 1.

(** ** Reverts and the error taxonomy *)

(** What a transaction can abort with: a failed [require] with its reason
    string, a revert inside the FHE library, or the arithmetic panic of
    checked arithmetic. *)
Inductive Revert : Type :=
| Require_failed (reason : string)
| FHE_revert
| Panic_overflow.

Inductive ErrorKind : Type :=
| AuthorizationError
| TimingError
| StateError
| RangeError
| DuplicateSubmissionError
| VerificationError
| ArithmeticPanic.

(** The reason strings of the contract, by the error kind they stand for. *)
Definition error_kind (r : Revert) : option ErrorKind :=
  match r with
  | Require_failed reason =>
      if String.eqb reason "Not authorized" then Some AuthorizationError
      else if String.eqb reason "Not during business hours" then Some TimingError
      else if String.eqb reason "Assessment window not active" then Some TimingError
      else if String.eqb reason "Not evaluation time" then Some TimingError
      else if String.eqb reason "Assessment already active" then Some StateError
      else if String.eqb reason "No threshold set" then Some StateError
      else if String.eqb reason "Assessment already completed" then Some StateError
      else if String.eqb reason "Assessment not completed" then Some StateError
      else if String.eqb reason "Invalid credit score" then Some RangeError
      else if String.eqb reason "Invalid employment years" then Some RangeError
      else if String.eqb reason "Invalid debt ratio" then Some RangeError
      else if String.eqb reason "Profile already submitted"
           then Some DuplicateSubmissionError
      else None
  | FHE_revert => Some VerificationError
  | Panic_overflow => Some ArithmeticPanic
  end.

(** ** Events *)

Inductive Event : Type :=
| AssessmentStarted (assessmentId : Z) (startTime : Z)
| ProfileSubmitted (applicant : address) (assessmentId : Z)
| AssessmentCompleted (assessmentId : Z) (approvedCount : Z)
| RiskLevelRevealed (assessmentId : Z) (riskThreshold : Z).

(** ** The time gate *)

Definition BUSINESS_HOURS_START : Z := 9.
Definition BUSINESS_HOURS_END : Z := 17.

(** [(block.timestamp / 3600) % 24], also what [getCurrentHour] returns. *)
Definition getCurrentHour (block_timestamp : Z) : Z :=
  (block_timestamp / 3600) mod 24.

Definition isBusinessHours (block_timestamp : Z) : bool :=
  let currentHour := (block_timestamp / 3600) mod 24 in
  (BUSINESS_HOURS_START <=? currentHour) && (currentHour <? BUSINESS_HOURS_END).

(** ** Storage records *)

Record RiskProfile : Type := mkRiskProfile {
  encryptedCreditScore : handle;
  encryptedIncome : handle;
  encryptedEmploymentYears : handle;
  encryptedDebtRatio : handle;
  hasSubmitted : bool;
  timestamp : Z;
  applicant : address
}.

Record Assessment : Type := mkAssessment {
  riskThreshold : handle;
  thresholdSet : bool;
  assessmentCompleted : bool;
  finalRiskLevel : Z;
  startTime : Z;
  endTime : Z;
  applicants : list address;
  profiles : gmap Z RiskProfile;
  approvedApplicants : gmap Z bool
}.

(** The value of a storage slot that was never written. *)
Definition zero_profile : RiskProfile :=
  mkRiskProfile 0 0 0 0 false 0 0.

Definition zero_assessment : Assessment :=
  mkAssessment 0 false false 0 0 0 [] ∅ ∅.

(** Reads of the two nested mappings. *)
Definition profile_of (a : Assessment) (who : address) : RiskProfile :=
  default zero_profile (profiles a !! who).

Definition approved_of (a : Assessment) (who : address) : bool :=
  default false (approvedApplicants a !! who).

(** Field assignments through a storage reference. *)
Definition set_riskThreshold (h : handle) (a : Assessment) : Assessment :=
  mkAssessment h (thresholdSet a) (assessmentCompleted a) (finalRiskLevel a)
    (startTime a) (endTime a) (applicants a) (profiles a) (approvedApplicants a).

Definition set_thresholdSet (b : bool) (a : Assessment) : Assessment :=
  mkAssessment (riskThreshold a) b (assessmentCompleted a) (finalRiskLevel a)
    (startTime a) (endTime a) (applicants a) (profiles a) (approvedApplicants a).

Definition set_assessmentCompleted (b : bool) (a : Assessment) : Assessment :=
  mkAssessment (riskThreshold a) (thresholdSet a) b (finalRiskLevel a)
    (startTime a) (endTime a) (applicants a) (profiles a) (approvedApplicants a).

Definition set_finalRiskLevel (v : Z) (a : Assessment) : Assessment :=
  mkAssessment (riskThreshold a) (thresholdSet a) (assessmentCompleted a) v
    (startTime a) (endTime a) (applicants a) (profiles a) (approvedApplicants a).

Definition set_startTime (t : Z) (a : Assessment) : Assessment :=
  mkAssessment (riskThreshold a) (thresholdSet a) (assessmentCompleted a)
    (finalRiskLevel a) t (endTime a) (applicants a) (profiles a)
    (approvedApplicants a).

Definition set_endTime (t : Z) (a : Assessment) : Assessment :=
  mkAssessment (riskThreshold a) (thresholdSet a) (assessmentCompleted a)
    (finalRiskLevel a) (startTime a) t (applicants a) (profiles a)
    (approvedApplicants a).

Definition set_applicants (l : list address) (a : Assessment) : Assessment :=
  mkAssessment (riskThreshold a) (thresholdSet a) (assessmentCompleted a)
    (finalRiskLevel a) (startTime a) (endTime a) l (profiles a)
    (approvedApplicants a).

Definition set_profile (who : address) (p : RiskProfile) (a : Assessment)
  : Assessment :=
  mkAssessment (riskThreshold a) (thresholdSet a) (assessmentCompleted a)
    (finalRiskLevel a) (startTime a) (endTime a) (applicants a)
    (<[who := p]> (profiles a)) (approvedApplicants a).

Definition set_approved (who : address) (b : bool) (a : Assessment)
  : Assessment :=
  mkAssessment (riskThreshold a) (thresholdSet a) (assessmentCompleted a)
    (finalRiskLevel a) (startTime a) (endTime a) (applicants a) (profiles a)
    (<[who := b]> (approvedApplicants a)).

(** ** What the contract imports *)

(** The FHE library with the coprocessor, ACL and decryption-oracle state
    behind it.  Encryption and access grants always go through;
    [requestDecryption] and [checkSignatures] may revert ([None]).
    [checkSignatures requestId cleartexts proof] receives [abi.encode] of the
    revealed value as one 256-bit word. *)
Class FHELib : Type := {
  fhe_state : Type;
  fhe_init : fhe_state;
  randEuint8 : fhe_state -> handle * fhe_state;
  asEuint8 : Z -> fhe_state -> handle * fhe_state;
  asEuint16 : Z -> fhe_state -> handle * fhe_state;
  asEuint32 : Z -> fhe_state -> handle * fhe_state;
  allowThis : handle -> fhe_state -> fhe_state;
  allow : handle -> address -> fhe_state -> fhe_state;
  requestDecryption : list handle -> fhe_state -> option (Z * fhe_state);
  checkSignatures : Z -> Z -> bytes -> fhe_state -> option fhe_state
}.

(** [keccak256] of the 24 bytes [abi.encodePacked(address, uint32)], the
    argument given as the 192-bit big-endian word those bytes spell. *)
Class EVM : Type := {
  keccak256 : Z -> Z
}.

Definition abi_encodePacked (who : address) (id : Z) : Z :=
  who * 2 ^ 32 + id.

(** ** The contract *)

Section Contract.
Context {F : FHELib} {E : EVM}.

Record State : Type := mkState {
  owner : address;
  currentAssessmentId : Z;
  lastAssessmentTime : Z;
  assessments : gmap Z Assessment;
  fhe : fhe_state
}.

(** [msg.sender] and [block.timestamp] of a call. *)
Record Msg : Type := mkMsg {
  msg_sender : address;
  block_timestamp : Z
}.

(** [assessments[id]]: a mapping read, zero where nothing was written. *)
Definition assessment_at (st : State) (id : Z) : Assessment :=
  default zero_assessment (assessments st !! id).

(** *** The transaction monad

    A transaction threads the storage and the log of emitted events, and may
    revert; a revert carries no storage: all writes of the call are undone. *)
Definition Tx : Type := (State * list Event)%type.
Definition M (A : Type) : Type := Tx -> Revert + (A * Tx).

Definition ret {A : Type} (a : A) : M A := fun tx => inr (a, tx).

Definition bind {A B : Type} (m : M A) (k : A -> M B) : M B :=
  fun tx => match m tx with
            | inl r => inl r
            | inr (a, tx') => k a tx'
            end.

Definition revert {A : Type} (r : Revert) : M A := fun _ => inl r.

Definition require (cond : bool) (reason : string) : M unit :=
  if cond then ret tt else revert (Require_failed reason).

Definition sload : M State := fun tx => inr (fst tx, tx).

Definition sstore (f : State -> State) : M unit :=
  fun tx => inr (tt, (f (fst tx), snd tx)).

Definition emit (e : Event) : M unit :=
  fun tx => inr (tt, (fst tx, snd tx ++ [e])).

(** Runs a transaction on a storage, with an empty log. *)
Definition run {A : Type} (m : M A) (st : State) : Revert + (A * Tx) :=
  m (st, []).

End Contract.

Notation "x <- c1 ;; c2" := (bind c1 (fun x => c2))
  (at level 100, c1 at next level, c2 at level 200, right associativity).
Notation "c1 ;; c2" := (bind c1 (fun _ => c2))
  (at level 100, c2 at level 200, right associativity).

Section Functions.
Context {F : FHELib} {E : EVM}.

Definition set_assessments (m : gmap Z Assessment) (st : State) : State :=
  mkState (owner st) (currentAssessmentId st) (lastAssessmentTime st) m (fhe st).

Definition set_currentAssessmentId (id : Z) (st : State) : State :=
  mkState (owner st) id (lastAssessmentTime st) (assessments st) (fhe st).

Definition set_fhe (f : fhe_state) (st : State) : State :=
  mkState (owner st) (currentAssessmentId st) (lastAssessmentTime st)
    (assessments st) f.

(** A write to [assessments[id]] through a storage reference. *)
Definition write_assessment (id : Z) (f : Assessment -> Assessment) (st : State)
  : State :=
  set_assessments (<[id := f (assessment_at st id)]> (assessments st)) st.

Definition update_assessment (id : Z) (f : Assessment -> Assessment) : M unit :=
  sstore (write_assessment id f).

(** [assessments[currentAssessmentId].field = ...] *)
Definition update_current (f : Assessment -> Assessment) : M unit :=
  st <- sload ;; update_assessment (currentAssessmentId st) f.

(** Calls into the FHE library. *)
Definition fhe_call {A : Type} (f : fhe_state -> A * fhe_state) : M A :=
  st <- sload ;;
  let (a, f') := f (fhe st) in
  sstore (set_fhe f') ;; ret a.

Definition fhe_do (f : fhe_state -> fhe_state) : M unit :=
  sstore (fun st => set_fhe (f (fhe st)) st).

Definition fhe_try {A : Type} (f : fhe_state -> option (A * fhe_state)) : M A :=
  st <- sload ;;
  match f (fhe st) with
  | Some (a, f') => sstore (set_fhe f') ;; ret a
  | None => revert FHE_revert
  end.

Definition fhe_check (f : fhe_state -> option fhe_state) : M unit :=
  st <- sload ;;
  match f (fhe st) with
  | Some f' => sstore (set_fhe f')
  | None => revert FHE_revert
  end.

(** *** Deployment *)

Definition constructor (msg : Msg) : State :=
  mkState (msg_sender msg) 1 (block_timestamp msg) ∅ fhe_init.

(** *** Windows *)

Definition isAssessmentWindowActive (st : State) (block_timestamp : Z) : bool :=
  if negb (thresholdSet (assessment_at st (currentAssessmentId st))) then false
  else if assessmentCompleted (assessment_at st (currentAssessmentId st))
       then false
  else isBusinessHours block_timestamp.

Definition isEvaluationTimeActive (st : State) (block_timestamp : Z) : bool :=
  negb (isBusinessHours block_timestamp) &&
  thresholdSet (assessment_at st (currentAssessmentId st)) &&
  negb (assessmentCompleted (assessment_at st (currentAssessmentId st))).

(** *** Modifiers *)

Definition onlyOwner (msg : Msg) : M unit :=
  st <- sload ;;
  require (msg_sender msg =? owner st) "Not authorized".

Definition onlyDuringBusinessHours (msg : Msg) : M unit :=
  require (isBusinessHours (block_timestamp msg)) "Not during business hours".

Definition onlyDuringAssessmentWindow (msg : Msg) : M unit :=
  st <- sload ;;
  require (isAssessmentWindowActive st (block_timestamp msg))
    "Assessment window not active".

Definition onlyDuringEvaluationTime (msg : Msg) : M unit :=
  st <- sload ;;
  require (isEvaluationTimeActive st (block_timestamp msg))
    "Not evaluation time".

(** *** startNewAssessment *)

Definition startNewAssessment (msg : Msg) : M unit :=
  onlyOwner msg ;;
  onlyDuringBusinessHours msg ;;
  st <- sload ;;
  require (negb (thresholdSet (assessment_at st (currentAssessmentId st))) ||
           assessmentCompleted (assessment_at st (currentAssessmentId st)))
    "Assessment already active" ;;
  riskThreshold <- fhe_call randEuint8 ;;
  st <- sload ;;
  let newAssessment := currentAssessmentId st in
  update_assessment newAssessment (set_riskThreshold riskThreshold) ;;
  update_assessment newAssessment (set_thresholdSet true) ;;
  update_assessment newAssessment (set_assessmentCompleted false) ;;
  update_assessment newAssessment (set_startTime (block_timestamp msg)) ;;
  update_assessment newAssessment (set_applicants []) ;;
  fhe_do (allowThis riskThreshold) ;;
  st <- sload ;;
  emit (AssessmentStarted (currentAssessmentId st) (block_timestamp msg)).

(** *** submitRiskProfile

    The four arguments are a [uint16], a [uint32], a [uint8] and a [uint16]. *)

Definition submitRiskProfile
  (_creditScore _income _employmentYears _debtRatio : Z) (msg : Msg) : M unit :=
  onlyDuringAssessmentWindow msg ;;
  require (_creditScore <=? 850) "Invalid credit score" ;;
  require (_employmentYears <=? 50) "Invalid employment years" ;;
  require (_debtRatio <=? 100) "Invalid debt ratio" ;;
  st <- sload ;;
  require (negb (hasSubmitted
             (profile_of (assessment_at st (currentAssessmentId st))
                (msg_sender msg))))
    "Profile already submitted" ;;
  encryptedCreditScore <- fhe_call (asEuint16 _creditScore) ;;
  encryptedIncome <- fhe_call (asEuint32 _income) ;;
  encryptedEmploymentYears <- fhe_call (asEuint8 _employmentYears) ;;
  encryptedDebtRatio <- fhe_call (asEuint16 _debtRatio) ;;
  update_current
    (set_profile (msg_sender msg)
       {| encryptedCreditScore := encryptedCreditScore;
          encryptedIncome := encryptedIncome;
          encryptedEmploymentYears := encryptedEmploymentYears;
          encryptedDebtRatio := encryptedDebtRatio;
          hasSubmitted := true;
          timestamp := block_timestamp msg;
          applicant := msg_sender msg |}) ;;
  update_current (fun a => set_applicants (applicants a ++ [msg_sender msg]) a) ;;
  fhe_do (allowThis encryptedCreditScore) ;;
  fhe_do (allowThis encryptedIncome) ;;
  fhe_do (allowThis encryptedEmploymentYears) ;;
  fhe_do (allowThis encryptedDebtRatio) ;;
  fhe_do (allow encryptedCreditScore (msg_sender msg)) ;;
  fhe_do (allow encryptedIncome (msg_sender msg)) ;;
  fhe_do (allow encryptedEmploymentYears (msg_sender msg)) ;;
  fhe_do (allow encryptedDebtRatio (msg_sender msg)) ;;
  st <- sload ;;
  emit (ProfileSubmitted (msg_sender msg) (currentAssessmentId st)).

(** *** processRiskAssessment

    The request identifier [FHE.requestDecryption] returns is dropped. *)

Definition processRiskAssessment (msg : Msg) : M unit :=
  onlyDuringEvaluationTime msg ;;
  st <- sload ;;
  require (thresholdSet (assessment_at st (currentAssessmentId st)))
    "No threshold set" ;;
  st <- sload ;;
  require (negb (assessmentCompleted (assessment_at st (currentAssessmentId st))))
    "Assessment already completed" ;;
  st <- sload ;;
  let assessment := assessment_at st (currentAssessmentId st) in
  let cts := [riskThreshold assessment] in
  _ <- fhe_try (requestDecryption cts) ;;
  ret tt.

(** *** The evaluation of the applicants *)

Definition _calculateRiskScore (applicant : address) (threshold : Z) : M bool :=
  st <- sload ;;
  let addressHash :=
    keccak256 (abi_encodePacked applicant (currentAssessmentId st)) in
  let simulatedRisk := (addressHash mod 101) mod 2 ^ 8 in
  ret (simulatedRisk <=? threshold).

(** The body of the [for] loop, over the applicants still to visit; the loop
    does not write to the array it walks, and [approved] (a [uint256]) counts
    entries of that array, so its checked increment cannot overflow. *)
Fixpoint _evaluateApplicants_loop (assessment : Z) (riskThreshold : Z)
  (todo : list address) (approved : Z) : M Z :=
  match todo with
  | [] => ret approved
  | applicant :: todo' =>
      isApproved <- _calculateRiskScore applicant riskThreshold ;;
      if isApproved
      then update_assessment assessment (set_approved applicant true) ;;
           _evaluateApplicants_loop assessment riskThreshold todo' (approved + 1)
      else _evaluateApplicants_loop assessment riskThreshold todo' approved
  end.

Definition _evaluateApplicants (riskThreshold : Z) : M Z :=
  st <- sload ;;
  let assessment := currentAssessmentId st in
  _evaluateApplicants_loop assessment riskThreshold
    (applicants (assessment_at st assessment)) 0.

(** *** processAssessmentResult, the decryption callback *)

(** [currentAssessmentId++] on a [uint32]. *)
Definition increment_currentAssessmentId : M unit :=
  st <- sload ;;
  if currentAssessmentId st <? UINT32_MAX
  then sstore (set_currentAssessmentId (currentAssessmentId st + 1))
  else revert Panic_overflow.

Definition processAssessmentResult
  (requestId : Z) (riskThreshold : Z) (signatures : bytes) (msg : Msg) : M unit :=
  let cleartexts := riskThreshold in
  fhe_check (checkSignatures requestId cleartexts signatures) ;;
  st <- sload ;;
  let assessment := currentAssessmentId st in
  update_assessment assessment (set_finalRiskLevel riskThreshold) ;;
  update_assessment assessment (set_endTime (block_timestamp msg)) ;;
  approvedCount <- _evaluateApplicants riskThreshold ;;
  update_assessment assessment (set_assessmentCompleted true) ;;
  st <- sload ;;
  emit (AssessmentCompleted (currentAssessmentId st) approvedCount) ;;
  st <- sload ;;
  emit (RiskLevelRevealed (currentAssessmentId st) riskThreshold) ;;
  increment_currentAssessmentId.

(** *** pauseCurrentAssessment *)

Definition pauseCurrentAssessment (msg : Msg) : M unit :=
  onlyOwner msg ;;
  update_current (set_assessmentCompleted true) ;;
  update_current (set_endTime (block_timestamp msg)).

(** *** Views *)

Definition getCurrentAssessmentInfo (st : State) : Z * bool * bool * Z * Z :=
  let currentAssessment := assessment_at st (currentAssessmentId st) in
  (currentAssessmentId st,
   thresholdSet currentAssessment,
   assessmentCompleted currentAssessment,
   startTime currentAssessment,
   Z.of_nat (length (applicants currentAssessment))).

Definition getApplicantStatus (st : State) (applicant : address)
  : bool * Z * bool :=
  let assessment := assessment_at st (currentAssessmentId st) in
  let profile := profile_of assessment applicant in
  (hasSubmitted profile, timestamp profile, approved_of assessment applicant).

Definition getAssessmentHistory (st : State) (assessmentId : Z)
  : bool * Z * Z * Z * Z :=
  let assessment := assessment_at st assessmentId in
  (assessmentCompleted assessment,
   finalRiskLevel assessment,
   startTime assessment,
   endTime assessment,
   Z.of_nat (length (applicants assessment))).

Definition checkApprovalStatus (st : State) (assessmentId : Z)
  (applicant : address) : Revert + bool :=
  if assessmentCompleted (assessment_at st assessmentId)
  then inr (approved_of (assessment_at st assessmentId) applicant)
  else inl (Require_failed "Assessment not completed").

End Functions.

(** ** Calls and reachable storages *)

Section Calls.
Context {F : FHELib} {E : EVM}.

(** The state-changing entry points, with their arguments. *)
Inductive Call : Type :=
| StartNewAssessment
| SubmitRiskProfile (_creditScore _income _employmentYears _debtRatio : Z)
| ProcessRiskAssessment
| ProcessAssessmentResult (requestId : Z) (riskThreshold : Z) (signatures : bytes)
| PauseCurrentAssessment.

Definition call (c : Call) (msg : Msg) : M unit :=
  match c with
  | StartNewAssessment => startNewAssessment msg
  | SubmitRiskProfile cs inc ey dr => submitRiskProfile cs inc ey dr msg
  | ProcessRiskAssessment => processRiskAssessment msg
  | ProcessAssessmentResult requestId riskThreshold signatures =>
      processAssessmentResult requestId riskThreshold signatures msg
  | PauseCurrentAssessment => pauseCurrentAssessment msg
  end.

(** The outcome of a call: the revert, or the new storage and the events. *)
Definition exec (c : Call) (msg : Msg) (st : State)
  : Revert + (State * list Event) :=
  match run (call c msg) st with
  | inl r => inl r
  | inr (_, tx) => inr tx
  end.

(** The storage a call leaves behind: a reverted call leaves it as it was. *)
Definition storage_after (c : Call) (msg : Msg) (st : State) : State :=
  match exec c msg st with
  | inl _ => st
  | inr (st', _) => st'
  end.

(** Whether a call goes through, and the events it emits. *)
Definition succeeds (c : Call) (msg : Msg) (st : State) : bool :=
  match exec c msg st with
  | inl _ => false
  | inr _ => true
  end.

Definition emitted (c : Call) (msg : Msg) (st : State) : list Event :=
  match exec c msg st with
  | inl _ => []
  | inr (_, evs) => evs
  end.

(** A sequence of calls: whether each of them goes through, and the storage
    they leave behind. *)
Fixpoint all_succeed (cs : list (Call * Msg)) (st : State) : bool :=
  match cs with
  | [] => true
  | (c, msg) :: cs' =>
      succeeds c msg st && all_succeed cs' (storage_after c msg st)
  end.

Fixpoint storage_after_all (cs : list (Call * Msg)) (st : State) : State :=
  match cs with
  | [] => st
  | (c, msg) :: cs' => storage_after_all cs' (storage_after c msg st)
  end.

(** [steps st st']: [st'] is what [st] becomes after some calls that went
    through (reverted calls change nothing). *)
Inductive steps : State -> State -> Prop :=
| steps_refl st : steps st st
| steps_call st st1 st2 c msg evs :
    steps st st1 -> exec c msg st1 = inr (st2, evs) -> steps st st2.

(** The storages the contract can be in after deployment. *)
Definition reachable (st : State) : Prop :=
  exists deploy, steps (constructor deploy) st.

(** A cycle is active when its threshold is set and it is not completed. *)
Definition active (st : State) (id : Z) : bool :=
  thresholdSet (assessment_at st id) &&
  negb (assessmentCompleted (assessment_at st id)).

(** The shape of a reachable storage: the current identifier is a [uint32]
    and at least 1; every cycle from 1 up to the current one (excluded) is
    completed; nothing was written above the current identifier or below 1;
    the current cycle has no approval recorded. *)
Definition well_formed (st : State) : Prop :=
  1 <= currentAssessmentId st <= UINT32_MAX /\
  (forall id, 1 <= id < currentAssessmentId st ->
              assessmentCompleted (assessment_at st id) = true) /\
  (forall id, currentAssessmentId st < id \/ id < 1 ->
              assessment_at st id = zero_assessment) /\
  approvedApplicants (assessment_at st (currentAssessmentId st)) = ∅.

End Calls.

(** ** Closed forms of the storage after each transaction *)

Section Posts.
Context {F : FHELib} {E : EVM}.

(** What [startNewAssessment] leaves in the storage when it goes through. *)
Definition startNewAssessment_post (msg : Msg) (st : State) : State :=
  let (riskThreshold, f1) := randEuint8 (fhe st) in
  set_fhe (allowThis riskThreshold f1)
    (write_assessment (currentAssessmentId st)
       (fun a => set_applicants []
                   (set_startTime (block_timestamp msg)
                      (set_assessmentCompleted false
                         (set_thresholdSet true
                            (set_riskThreshold riskThreshold a)))))
       st).

(** The profile [submitRiskProfile] stores. *)
Definition submitted_profile (h1 h2 h3 h4 : handle) (msg : Msg) : RiskProfile :=
  {| encryptedCreditScore := h1;
     encryptedIncome := h2;
     encryptedEmploymentYears := h3;
     encryptedDebtRatio := h4;
     hasSubmitted := true;
     timestamp := block_timestamp msg;
     applicant := msg_sender msg |}.

Definition submitRiskProfile_post
  (_creditScore _income _employmentYears _debtRatio : Z) (msg : Msg) (st : State)
  : State :=
  let who := msg_sender msg in
  let (h1, f1) := asEuint16 _creditScore (fhe st) in
  let (h2, f2) := asEuint32 _income f1 in
  let (h3, f3) := asEuint8 _employmentYears f2 in
  let (h4, f4) := asEuint16 _debtRatio f3 in
  set_fhe
    (allow h4 who (allow h3 who (allow h2 who (allow h1 who
       (allowThis h4 (allowThis h3 (allowThis h2 (allowThis h1 f4))))))))
    (write_assessment (currentAssessmentId st)
       (fun a => set_applicants (applicants a ++ [who])
                   (set_profile who (submitted_profile h1 h2 h3 h4 msg) a))
       st).

Definition pauseCurrentAssessment_post (msg : Msg) (st : State) : State :=
  write_assessment (currentAssessmentId st)
    (fun a => set_endTime (block_timestamp msg) (set_assessmentCompleted true a))
    st.

(** The placeholder score of [_calculateRiskScore] for cycle [id]. *)
Definition risk_ok (id : Z) (threshold : Z) (applicant : address) : bool :=
  (keccak256 (abi_encodePacked applicant id) mod 101) mod 2 ^ 8 <=? threshold.

(** The approval flags after the loop of [_evaluateApplicants] walked [l]. *)
Definition approve_all (id : Z) (threshold : Z) (l : list address)
  (a : Assessment) : Assessment :=
  fold_left
    (fun acc applicant =>
       if risk_ok id threshold applicant then set_approved applicant true acc
       else acc)
    l a.

(** The number of entries of [l] the loop counted as approved. *)
Definition count_approved (id : Z) (threshold : Z) (l : list address) : Z :=
  Z.of_nat (length (List.filter (risk_ok id threshold) l)).

(** What [processAssessmentResult] leaves in the storage when it goes
    through; [f'] is the library state after the signature check. *)
Definition processAssessmentResult_post (f' : fhe_state) (riskThreshold : Z)
  (msg : Msg) (st : State) : State :=
  let id := currentAssessmentId st in
  let todo := applicants (assessment_at st id) in
  set_currentAssessmentId (id + 1)
    (set_fhe f'
       (write_assessment id
          (fun a => set_assessmentCompleted true
                      (approve_all id riskThreshold todo
                         (set_endTime (block_timestamp msg)
                            (set_finalRiskLevel riskThreshold a))))
          st)).

End Posts.

(** ** The shape of the participant lists *)

Section Lists.
Context {F : FHELib} {E : EVM}.

(** What every cycle record of a reachable storage satisfies: the
    participant list has no repetition; everybody on it has a submitted
    profile carrying their own identity; a cycle whose threshold was never
    set has an empty list; and in a cycle below the current identifier the
    approved participants are exactly the listed ones whose placeholder
    score is within the recorded final risk level. *)
Definition coherent (st : State) : Prop :=
  (forall id, List.NoDup (applicants (assessment_at st id))) /\
  (forall id who,
     In who (applicants (assessment_at st id)) ->
     hasSubmitted (profile_of (assessment_at st id) who) = true) /\
  (forall id who,
     hasSubmitted (profile_of (assessment_at st id) who) = true ->
     applicant (profile_of (assessment_at st id) who) = who) /\
  (forall id,
     thresholdSet (assessment_at st id) = false ->
     applicants (assessment_at st id) = []) /\
  (forall id who,
     1 <= id < currentAssessmentId st ->
     (approved_of (assessment_at st id) who = true <->
      In who (applicants (assessment_at st id)) /\
      risk_ok id (finalRiskLevel (assessment_at st id)) who = true)).

End Lists.

(** ** A reference environment

    An instance of the library interface in the manner of a test double:
    handles are numbered as they are created, grants are recorded as
    (handle, principal) pairs with principal [0] standing for the contract
    itself, a decryption request stores its handles under a running request
    identifier, and a proof verifies when handles are stored under the
    request identifier and the proof is the one byte [mock_proof] computes
    from the identifier and the cleartext.  The check does not consume the
    request: like the contract, it is told the identifier and nothing else. *)

Module Mock.

Record lib : Type := mkLib {
  next_handle : Z;
  acl : list (handle * Z);
  counterRequest : Z;
  requestedHandles : gmap Z (list handle)
}.

Definition fresh (l : lib) : handle * lib :=
  (next_handle l,
   mkLib (next_handle l + 1) (acl l) (counterRequest l) (requestedHandles l)).

Definition granted (h : handle) (who : Z) (l : lib) : bool :=
  existsb (fun g => (fst g =? h) && (snd g =? who)) (acl l).

Definition grant (h : handle) (who : Z) (l : lib) : lib :=
  if granted h who l then l
  else mkLib (next_handle l) ((h, who) :: acl l) (counterRequest l)
         (requestedHandles l).

Definition request (cts : list handle) (l : lib) : option (Z * lib) :=
  if forallb (fun h => granted h 0 l) cts
  then Some (counterRequest l,
             mkLib (next_handle l) (acl l) (counterRequest l + 1)
               (<[counterRequest l := cts]> (requestedHandles l)))
  else None.

Definition mock_proof (requestId cleartexts : Z) : bytes :=
  match Byte.of_N (Z.to_N ((requestId + cleartexts) mod 256)) with
  | Some b => [b]
  | None => []
  end.

Fixpoint bytes_eqb (a b : bytes) : bool :=
  match a, b with
  | [], [] => true
  | x :: a', y :: b' => Byte.eqb x y && bytes_eqb a' b'
  | _, _ => false
  end.

Definition check (requestId cleartexts : Z) (proof : bytes) (l : lib)
  : option lib :=
  match requestedHandles l !! requestId with
  | Some _ =>
      if bytes_eqb proof (mock_proof requestId cleartexts) then Some l else None
  | None => None
  end.

#[export] Instance mock_lib : FHELib := {|
  fhe_state := lib;
  fhe_init := mkLib 1 [] 0 ∅;
  randEuint8 := fresh;
  asEuint8 := fun _ => fresh;
  asEuint16 := fun _ => fresh;
  asEuint32 := fun _ => fresh;
  allowThis := fun h => grant h 0;
  allow := grant;
  requestDecryption := request;
  checkSignatures := check
|}.

#[export] Instance mock_evm : EVM := {|
  keccak256 := fun w => (w * 2654435761 + 40503) mod 2 ^ 256
|}.

(** The owner, an applicant, and the hours of a day. *)
Definition deployer : address := 1000.
Definition alice : address := 1.

Definition at_hour (who : address) (day hour : Z) : Msg :=
  mkMsg who (day * 86400 + hour * 3600).

Definition deployed : State := constructor (at_hour deployer 0 8).

Definition oracle : address := 77.

(** A cycle started at 10:00 and one profile submitted at 11:00. *)
Definition to_started : list (Call * Msg) :=
  [(StartNewAssessment, at_hour deployer 0 10)].

Definition first_submission : Call := SubmitRiskProfile 800 100000 10 20.

Definition to_submitted : list (Call * Msg) :=
  to_started ++ [(first_submission, at_hour alice 0 11)].

(** The owner pauses that cycle at noon. *)
Definition to_paused : list (Call * Msg) :=
  to_submitted ++ [(PauseCurrentAssessment, at_hour deployer 0 12)].

(** Or the evaluation is requested at 20:00 (request 0) and the oracle
    delivers the threshold 50 at 21:00. *)
Definition to_requested : list (Call * Msg) :=
  to_submitted ++ [(ProcessRiskAssessment, at_hour deployer 0 20)].

Definition first_callback : Call :=
  ProcessAssessmentResult 0 50 (mock_proof 0 50).

Definition to_revealed : list (Call * Msg) :=
  to_requested ++ [(first_callback, at_hour oracle 0 21)].

(** Or the owner pauses the cycle while request 0 is pending. *)
Definition to_paused_pending : list (Call * Msg) :=
  to_requested ++ [(PauseCurrentAssessment, at_hour deployer 0 20)].

Definition started : State := storage_after_all to_started deployed.
Definition submitted : State := storage_after_all to_submitted deployed.
Definition paused : State := storage_after_all to_paused deployed.
Definition requested : State := storage_after_all to_requested deployed.
Definition revealed : State := storage_after_all to_revealed deployed.
Definition paused_pending : State := storage_after_all to_paused_pending deployed.

(** The storage of [requested] with the last [uint32] as current identifier. *)
Definition last_cycle : State := set_currentAssessmentId UINT32_MAX requested.

End Mock.


(** ** Derived forms of the transactions *)

Section Verification.
Context {F : FHELib} {E : EVM}.

Lemma assessment_at_write (st : State) (id id' : Z) (f : Assessment -> Assessment) :
  assessment_at (write_assessment id f st) id' =
  if decide (id = id') then f (assessment_at st id) else assessment_at st id'.
Proof.
  unfold assessment_at, write_assessment, set_assessments; cbn [assessments].
  rewrite lookup_insert. destruct (decide (id = id')); reflexivity.
Qed.

Lemma write_write (st : State) (id : Z) (f g : Assessment -> Assessment) :
  write_assessment id f (write_assessment id g st) =
  write_assessment id (fun a => f (g a)) st.
Proof.
  unfold write_assessment at 1. rewrite assessment_at_write.
  destruct (decide (id = id)) as [_|n]; [|contradiction].
  unfold write_assessment, set_assessments; cbn [assessments owner
    currentAssessmentId lastAssessmentTime fhe].
  rewrite insert_insert_eq. reflexivity.
Qed.

Lemma write_set_fhe (st : State) (id : Z) (f : Assessment -> Assessment)
  (x : fhe_state) :
  write_assessment id f (set_fhe x st) = set_fhe x (write_assessment id f st).
Proof. reflexivity. Qed.

Lemma set_fhe_set_fhe (st : State) (x y : fhe_state) :
  set_fhe x (set_fhe y st) = set_fhe x st.
Proof. reflexivity. Qed.

Ltac unfold_tx :=
  unfold run, onlyOwner, onlyDuringBusinessHours, onlyDuringAssessmentWindow,
    onlyDuringEvaluationTime, fhe_call, fhe_do, fhe_try, fhe_check,
    update_current, update_assessment, increment_currentAssessmentId,
    bind, sload, require, sstore, emit, ret, revert;
  cbn [fst snd].

Lemma startNewAssessment_run (msg : Msg) (st : State) :
  run (startNewAssessment msg) st =
  if negb (msg_sender msg =? owner st)
  then inl (Require_failed "Not authorized")
  else if negb (isBusinessHours (block_timestamp msg))
  then inl (Require_failed "Not during business hours")
  else if negb (negb (thresholdSet (assessment_at st (currentAssessmentId st)))
                || assessmentCompleted (assessment_at st (currentAssessmentId st)))
  then inl (Require_failed "Assessment already active")
  else inr (tt, (startNewAssessment_post msg st,
                 [AssessmentStarted (currentAssessmentId st) (block_timestamp msg)])).
Proof.
  unfold startNewAssessment, startNewAssessment_post. unfold_tx.
  destruct (msg_sender msg =? owner st); cbn; [|reflexivity].
  destruct (isBusinessHours (block_timestamp msg)); cbn; [|reflexivity].
  destruct (negb _ || _); cbn; [|reflexivity].
  destruct (randEuint8 (fhe st)) as [h f1]; cbn.
  rewrite !write_write, write_set_fhe, set_fhe_set_fhe. reflexivity.
Qed.

Lemma submitRiskProfile_run (cs inc ey dr : Z) (msg : Msg) (st : State) :
  run (submitRiskProfile cs inc ey dr msg) st =
  if negb (isAssessmentWindowActive st (block_timestamp msg))
  then inl (Require_failed "Assessment window not active")
  else if negb (cs <=? 850) then inl (Require_failed "Invalid credit score")
  else if negb (ey <=? 50) then inl (Require_failed "Invalid employment years")
  else if negb (dr <=? 100) then inl (Require_failed "Invalid debt ratio")
  else if hasSubmitted (profile_of (assessment_at st (currentAssessmentId st))
                          (msg_sender msg))
  then inl (Require_failed "Profile already submitted")
  else inr (tt, (submitRiskProfile_post cs inc ey dr msg st,
                 [ProfileSubmitted (msg_sender msg) (currentAssessmentId st)])).
Proof.
  unfold submitRiskProfile, submitRiskProfile_post. unfold_tx.
  destruct (isAssessmentWindowActive st (block_timestamp msg)); cbn; [|reflexivity].
  destruct (cs <=? 850); cbn; [|reflexivity].
  destruct (ey <=? 50); cbn; [|reflexivity].
  destruct (dr <=? 100); cbn; [|reflexivity].
  destruct (hasSubmitted _); cbn; [reflexivity|].
  destruct (asEuint16 cs (fhe st)) as [h1 f1]; cbn.
  destruct (asEuint32 inc f1) as [h2 f2]; cbn.
  destruct (asEuint8 ey f2) as [h3 f3]; cbn.
  destruct (asEuint16 dr f3) as [h4 f4]; cbn.
  rewrite !write_write. reflexivity.
Qed.

Lemma processRiskAssessment_run (msg : Msg) (st : State) :
  run (processRiskAssessment msg) st =
  if negb (isEvaluationTimeActive st (block_timestamp msg))
  then inl (Require_failed "Not evaluation time")
  else if negb (thresholdSet (assessment_at st (currentAssessmentId st)))
  then inl (Require_failed "No threshold set")
  else if assessmentCompleted (assessment_at st (currentAssessmentId st))
  then inl (Require_failed "Assessment already completed")
  else match requestDecryption
               [riskThreshold (assessment_at st (currentAssessmentId st))]
               (fhe st) with
       | Some (_, f') => inr (tt, (set_fhe f' st, []))
       | None => inl FHE_revert
       end.
Proof.
  unfold processRiskAssessment. unfold_tx.
  destruct (isEvaluationTimeActive st (block_timestamp msg)); cbn; [|reflexivity].
  destruct (thresholdSet _); cbn; [|reflexivity].
  destruct (assessmentCompleted _); cbn; [reflexivity|].
  destruct (requestDecryption _ _) as [[rid f']|]; reflexivity.
Qed.

Lemma pauseCurrentAssessment_run (msg : Msg) (st : State) :
  run (pauseCurrentAssessment msg) st =
  if negb (msg_sender msg =? owner st)
  then inl (Require_failed "Not authorized")
  else inr (tt, (pauseCurrentAssessment_post msg st, [])).
Proof.
  unfold pauseCurrentAssessment, pauseCurrentAssessment_post. unfold_tx.
  destruct (msg_sender msg =? owner st); cbn; [|reflexivity].
  rewrite write_write. reflexivity.
Qed.

Lemma _evaluateApplicants_loop_run (id thr : Z) (l : list address) :
  forall (g : Assessment -> Assessment) (n : Z) (st : State) (evs : list Event),
  _evaluateApplicants_loop id thr l n (write_assessment id g st, evs) =
  inr (n + count_approved (currentAssessmentId st) thr l,
       (write_assessment id
          (fun a => approve_all (currentAssessmentId st) thr l (g a)) st,
        evs)).
Proof.
  induction l as [|who l IH]; intros g n st evs.
  - unfold count_approved; cbn. unfold ret. rewrite Z.add_0_r. reflexivity.
  - cbn [_evaluateApplicants_loop]. unfold _calculateRiskScore. unfold_tx.
    change (currentAssessmentId (write_assessment id g st))
      with (currentAssessmentId st).
    fold (risk_ok (currentAssessmentId st) thr who).
    unfold count_approved, approve_all. cbn [List.filter fold_left].
    destruct (risk_ok (currentAssessmentId st) thr who); cbn [fst snd].
    + rewrite write_write, IH.
      unfold count_approved, approve_all. cbn [length].
      rewrite Nat2Z.inj_succ. do 2 f_equal. lia.
    + rewrite IH. reflexivity.
Qed.

Lemma processAssessmentResult_run (requestId thr : Z) (sigs : bytes) (msg : Msg)
  (st : State) :
  run (processAssessmentResult requestId thr sigs msg) st =
  match checkSignatures requestId thr sigs (fhe st) with
  | None => inl FHE_revert
  | Some f' =>
      if currentAssessmentId st <? UINT32_MAX
      then inr (tt, (processAssessmentResult_post f' thr msg st,
                     [AssessmentCompleted (currentAssessmentId st)
                        (count_approved (currentAssessmentId st) thr
                           (applicants (assessment_at st (currentAssessmentId st))));
                      RiskLevelRevealed (currentAssessmentId st) thr]))
      else inl Panic_overflow
  end.
Proof.
  unfold processAssessmentResult, processAssessmentResult_post. unfold_tx.
  destruct (checkSignatures requestId thr sigs (fhe st)) as [f'|]; cbn;
    [|reflexivity].
  unfold _evaluateApplicants. unfold_tx.
  rewrite write_write, assessment_at_write.
  destruct (decide (currentAssessmentId st = currentAssessmentId st)) as [_|n];
    [|contradiction].
  change (currentAssessmentId (write_assessment _ _ (set_fhe f' st)))
    with (currentAssessmentId st).
  cbn [applicants set_endTime set_finalRiskLevel].
  change (assessment_at (set_fhe f' st) (currentAssessmentId st))
    with (assessment_at st (currentAssessmentId st)).
  rewrite _evaluateApplicants_loop_run. cbn [fst snd].
  change (currentAssessmentId (set_fhe f' st)) with (currentAssessmentId st).
  change (currentAssessmentId (write_assessment ?i ?f (set_fhe f' st)))
    with (currentAssessmentId st).
  destruct (currentAssessmentId st <? UINT32_MAX); [|reflexivity].
  cbn [fst snd app]. rewrite write_write, Z.add_0_l. reflexivity.
Qed.

(** The outcome of each call, by its guards. *)

Lemma exec_start (msg : Msg) (st : State) :
  exec StartNewAssessment msg st =
  if negb (msg_sender msg =? owner st)
  then inl (Require_failed "Not authorized")
  else if negb (isBusinessHours (block_timestamp msg))
  then inl (Require_failed "Not during business hours")
  else if negb (negb (thresholdSet (assessment_at st (currentAssessmentId st)))
                || assessmentCompleted (assessment_at st (currentAssessmentId st)))
  then inl (Require_failed "Assessment already active")
  else inr (startNewAssessment_post msg st,
            [AssessmentStarted (currentAssessmentId st) (block_timestamp msg)]).
Proof.
  unfold exec, call. rewrite startNewAssessment_run.
  repeat match goal with |- context [if ?b then _ else _] => destruct b end;
    reflexivity.
Qed.

Lemma exec_submit (cs inc ey dr : Z) (msg : Msg) (st : State) :
  exec (SubmitRiskProfile cs inc ey dr) msg st =
  if negb (isAssessmentWindowActive st (block_timestamp msg))
  then inl (Require_failed "Assessment window not active")
  else if negb (cs <=? 850) then inl (Require_failed "Invalid credit score")
  else if negb (ey <=? 50) then inl (Require_failed "Invalid employment years")
  else if negb (dr <=? 100) then inl (Require_failed "Invalid debt ratio")
  else if hasSubmitted (profile_of (assessment_at st (currentAssessmentId st))
                          (msg_sender msg))
  then inl (Require_failed "Profile already submitted")
  else inr (submitRiskProfile_post cs inc ey dr msg st,
            [ProfileSubmitted (msg_sender msg) (currentAssessmentId st)]).
Proof.
  unfold exec, call. rewrite submitRiskProfile_run.
  repeat match goal with |- context [if ?b then _ else _] => destruct b end;
    reflexivity.
Qed.

Lemma exec_process (msg : Msg) (st : State) :
  exec ProcessRiskAssessment msg st =
  if negb (isEvaluationTimeActive st (block_timestamp msg))
  then inl (Require_failed "Not evaluation time")
  else if negb (thresholdSet (assessment_at st (currentAssessmentId st)))
  then inl (Require_failed "No threshold set")
  else if assessmentCompleted (assessment_at st (currentAssessmentId st))
  then inl (Require_failed "Assessment already completed")
  else match requestDecryption
               [riskThreshold (assessment_at st (currentAssessmentId st))]
               (fhe st) with
       | Some (_, f') => inr (set_fhe f' st, [])
       | None => inl FHE_revert
       end.
Proof.
  unfold exec, call. rewrite processRiskAssessment_run.
  repeat match goal with |- context [if ?b then _ else _] => destruct b end;
    try reflexivity.
  destruct (requestDecryption _ _) as [[rid f']|]; reflexivity.
Qed.

Lemma exec_result (requestId thr : Z) (sigs : bytes) (msg : Msg) (st : State) :
  exec (ProcessAssessmentResult requestId thr sigs) msg st =
  match checkSignatures requestId thr sigs (fhe st) with
  | None => inl FHE_revert
  | Some f' =>
      if currentAssessmentId st <? UINT32_MAX
      then inr (processAssessmentResult_post f' thr msg st,
                [AssessmentCompleted (currentAssessmentId st)
                   (count_approved (currentAssessmentId st) thr
                      (applicants (assessment_at st (currentAssessmentId st))));
                 RiskLevelRevealed (currentAssessmentId st) thr])
      else inl Panic_overflow
  end.
Proof.
  unfold exec, call. rewrite processAssessmentResult_run.
  destruct (checkSignatures _ _ _ _); [|reflexivity].
  destruct (_ <? _); reflexivity.
Qed.

Lemma exec_pause (msg : Msg) (st : State) :
  exec PauseCurrentAssessment msg st =
  if negb (msg_sender msg =? owner st)
  then inl (Require_failed "Not authorized")
  else inr (pauseCurrentAssessment_post msg st, []).
Proof.
  unfold exec, call. rewrite pauseCurrentAssessment_run.
  destruct (negb _); reflexivity.
Qed.

(** Reads of the storage after each transaction. *)

Lemma approve_all_fields (id thr : Z) (l : list address) (a : Assessment) :
  riskThreshold (approve_all id thr l a) = riskThreshold a /\
  thresholdSet (approve_all id thr l a) = thresholdSet a /\
  assessmentCompleted (approve_all id thr l a) = assessmentCompleted a /\
  finalRiskLevel (approve_all id thr l a) = finalRiskLevel a /\
  startTime (approve_all id thr l a) = startTime a /\
  endTime (approve_all id thr l a) = endTime a /\
  applicants (approve_all id thr l a) = applicants a /\
  profiles (approve_all id thr l a) = profiles a.
Proof.
  revert a. induction l as [|who l IH]; intros a; [repeat split|].
  unfold approve_all in *. cbn [fold_left].
  destruct (risk_ok id thr who); [|apply IH].
  specialize (IH (set_approved who true a)). cbn in IH. exact IH.
Qed.

Lemma approved_of_set_approved (who who' : address) (a : Assessment) :
  approved_of (set_approved who true a) who' =
  if decide (who = who') then true else approved_of a who'.
Proof.
  unfold approved_of, set_approved; cbn [approvedApplicants].
  rewrite lookup_insert. destruct (decide (who = who')); reflexivity.
Qed.

Lemma approved_of_approve_all (id thr : Z) (l : list address) (a : Assessment)
  (who : address) :
  approved_of (approve_all id thr l a) who = true <->
  approved_of a who = true \/ (In who l /\ risk_ok id thr who = true).
Proof.
  revert a. induction l as [|x l IH]; intros a.
  - cbn. tauto.
  - unfold approve_all in *. cbn [fold_left In].
    destruct (risk_ok id thr x) eqn:Hx.
    + rewrite IH, approved_of_set_approved.
      destruct (decide (x = who)) as [->|Hne]; [tauto|].
      split; [tauto|]. intros [?|[[?|?] ?]]; tauto.
    + rewrite IH. split; [tauto|].
      intros [?|[[->|?] ?]]; [tauto|congruence|tauto].
Qed.

Lemma assessment_at_set_fhe (st : State) (x : fhe_state) (id : Z) :
  assessment_at (set_fhe x st) id = assessment_at st id.
Proof. reflexivity. Qed.

Lemma assessment_at_set_cur (st : State) (c id : Z) :
  assessment_at (set_currentAssessmentId c st) id = assessment_at st id.
Proof. reflexivity. Qed.

Lemma start_post_cur (msg : Msg) (st : State) :
  currentAssessmentId (startNewAssessment_post msg st) = currentAssessmentId st.
Proof.
  unfold startNewAssessment_post. destruct (randEuint8 (fhe st)). reflexivity.
Qed.

Lemma start_post_owner (msg : Msg) (st : State) :
  owner (startNewAssessment_post msg st) = owner st.
Proof.
  unfold startNewAssessment_post. destruct (randEuint8 (fhe st)). reflexivity.
Qed.

Lemma start_post_at (msg : Msg) (st : State) (id : Z) :
  assessment_at (startNewAssessment_post msg st) id =
  if decide (currentAssessmentId st = id)
  then set_applicants []
         (set_startTime (block_timestamp msg)
            (set_assessmentCompleted false
               (set_thresholdSet true
                  (set_riskThreshold (fst (randEuint8 (fhe st)))
                     (assessment_at st (currentAssessmentId st))))))
  else assessment_at st id.
Proof.
  unfold startNewAssessment_post. destruct (randEuint8 (fhe st)) as [h f1].
  rewrite assessment_at_set_fhe, assessment_at_write. reflexivity.
Qed.

Lemma submit_post_cur (cs inc ey dr : Z) (msg : Msg) (st : State) :
  currentAssessmentId (submitRiskProfile_post cs inc ey dr msg st) =
  currentAssessmentId st.
Proof.
  unfold submitRiskProfile_post.
  repeat match goal with |- context [let (_, _) := ?p in _] => destruct p end.
  reflexivity.
Qed.

Lemma submit_post_owner (cs inc ey dr : Z) (msg : Msg) (st : State) :
  owner (submitRiskProfile_post cs inc ey dr msg st) = owner st.
Proof.
  unfold submitRiskProfile_post.
  repeat match goal with |- context [let (_, _) := ?p in _] => destruct p end.
  reflexivity.
Qed.

Lemma submit_post_at (cs inc ey dr : Z) (msg : Msg) (st : State) :
  exists h1 h2 h3 h4 : handle, forall id : Z,
  assessment_at (submitRiskProfile_post cs inc ey dr msg st) id =
  if decide (currentAssessmentId st = id)
  then set_applicants
         (applicants (assessment_at st (currentAssessmentId st)) ++
          [msg_sender msg])
         (set_profile (msg_sender msg) (submitted_profile h1 h2 h3 h4 msg)
            (assessment_at st (currentAssessmentId st)))
  else assessment_at st id.
Proof.
  unfold submitRiskProfile_post.
  destruct (asEuint16 cs (fhe st)) as [h1 f1].
  destruct (asEuint32 inc f1) as [h2 f2].
  destruct (asEuint8 ey f2) as [h3 f3].
  destruct (asEuint16 dr f3) as [h4 f4].
  exists h1, h2, h3, h4. intros id.
  rewrite assessment_at_set_fhe, assessment_at_write. reflexivity.
Qed.

Lemma pause_post_at (msg : Msg) (st : State) (id : Z) :
  assessment_at (pauseCurrentAssessment_post msg st) id =
  if decide (currentAssessmentId st = id)
  then set_endTime (block_timestamp msg)
         (set_assessmentCompleted true
            (assessment_at st (currentAssessmentId st)))
  else assessment_at st id.
Proof. unfold pauseCurrentAssessment_post. apply assessment_at_write. Qed.

Lemma result_post_at (f' : fhe_state) (thr : Z) (msg : Msg) (st : State) (id : Z) :
  assessment_at (processAssessmentResult_post f' thr msg st) id =
  if decide (currentAssessmentId st = id)
  then set_assessmentCompleted true
         (approve_all (currentAssessmentId st) thr
            (applicants (assessment_at st (currentAssessmentId st)))
            (set_endTime (block_timestamp msg)
               (set_finalRiskLevel thr
                  (assessment_at st (currentAssessmentId st)))))
  else assessment_at st id.
Proof.
  unfold processAssessmentResult_post. cbv zeta.
  rewrite assessment_at_set_cur, assessment_at_set_fhe.
  apply assessment_at_write.
Qed.

(** Case analysis of a call that went through. *)
Ltac exec_cases H :=
  match type of H with exec ?c _ _ = _ => destruct c end;
  [ rewrite exec_start in H | rewrite exec_submit in H
  | rewrite exec_process in H | rewrite exec_result in H
  | rewrite exec_pause in H ];
  repeat match type of H with
         | (if ?b then _ else _) = _ => destruct b eqn:?
         | match ?o with Some _ => _ | None => _ end = _ =>
             destruct o as [?|] eqn:?
         | match ?p with pair _ _ => _ end = _ => destruct p
         end;
  try discriminate H; injection H as <- <-.

(** *** What a call can change *)

(** The owner never changes. *)
Lemma exec_owner (c : Call) (msg : Msg) (st st' : State) (evs : list Event) :
  exec c msg st = inr (st', evs) -> owner st' = owner st.
Proof.
  intros H. exec_cases H;
    [apply start_post_owner | apply submit_post_owner | reflexivity
    | reflexivity | reflexivity].
Qed.

(** The current identifier stays or, on a callback, goes up by one. *)
Lemma exec_cur (c : Call) (msg : Msg) (st st' : State) (evs : list Event) :
  exec c msg st = inr (st', evs) ->
  currentAssessmentId st' = currentAssessmentId st \/
  (currentAssessmentId st' = currentAssessmentId st + 1 /\
   currentAssessmentId st < UINT32_MAX /\
   exists requestId thr sigs, c = ProcessAssessmentResult requestId thr sigs).
Proof.
  intros H. exec_cases H.
  - left. apply start_post_cur.
  - left. apply submit_post_cur.
  - left. reflexivity.
  - right. split; [reflexivity|]. split; [lia|]. eauto.
  - left. reflexivity.
Qed.

(** A call writes to no cycle but the current one. *)
Lemma exec_other_cycles (c : Call) (msg : Msg) (st st' : State)
  (evs : list Event) (id : Z) :
  exec c msg st = inr (st', evs) -> id <> currentAssessmentId st ->
  assessment_at st' id = assessment_at st id.
Proof.
  intros H Hid. exec_cases H.
  - rewrite start_post_at. destruct (decide _); congruence.
  - destruct (submit_post_at _creditScore _income _employmentYears _debtRatio
                msg st) as (h1 & h2 & h3 & h4 & Hat).
    rewrite Hat. destruct (decide _); congruence.
  - reflexivity.
  - rewrite result_post_at. destruct (decide _); congruence.
  - rewrite pause_post_at. destruct (decide _); congruence.
Qed.

(** *** The invariant of reachable storages *)

Lemma well_formed_constructor (deploy : Msg) : well_formed (constructor deploy).
Proof.
  unfold well_formed, constructor, assessment_at, UINT32_MAX; cbn.
  repeat split; try lia; intros; rewrite ?lookup_empty; reflexivity.
Qed.

(** A call leaves the approvals of the current cycle alone unless it is the
    callback. *)
Lemma exec_approvals (c : Call) (msg : Msg) (st st' : State) (evs : list Event) :
  exec c msg st = inr (st', evs) ->
  currentAssessmentId st' = currentAssessmentId st ->
  approvedApplicants (assessment_at st' (currentAssessmentId st)) =
  approvedApplicants (assessment_at st (currentAssessmentId st)).
Proof.
  intros H Hcur. exec_cases H.
  - rewrite start_post_at. destruct (decide _); reflexivity.
  - destruct (submit_post_at _creditScore _income _employmentYears _debtRatio
                msg st) as (h1 & h2 & h3 & h4 & Hat).
    rewrite Hat. destruct (decide _); reflexivity.
  - reflexivity.
  - cbn in Hcur. lia.
  - rewrite pause_post_at. destruct (decide _); reflexivity.
Qed.

(** A completed flag is only ever cleared on the current cycle. *)
Lemma exec_completed_current (requestId thr : Z) (sigs : bytes) (msg : Msg)
  (st st' : State) (evs : list Event) :
  exec (ProcessAssessmentResult requestId thr sigs) msg st = inr (st', evs) ->
  assessmentCompleted (assessment_at st' (currentAssessmentId st)) = true.
Proof.
  intros H. rewrite exec_result in H.
  destruct (checkSignatures _ _ _ _) as [f'|]; [|discriminate].
  destruct (_ <? _); [|discriminate]. injection H as <- <-.
  rewrite result_post_at. destruct (decide _) as [_|n]; [reflexivity|].
  contradiction.
Qed.

Lemma well_formed_exec (c : Call) (msg : Msg) (st st' : State)
  (evs : list Event) :
  well_formed st -> exec c msg st = inr (st', evs) -> well_formed st'.
Proof.
  intros (Hrange & Hpast & Hfresh & Happ) H.
  pose proof (exec_cur _ _ _ _ _ H) as Hcur.
  pose proof (fun id => exec_other_cycles c msg st st' evs id H) as Hother.
  destruct Hcur as [Hcur|(Hcur & Hmax & rid & thr & sigs & ->)].
  - unfold well_formed. rewrite Hcur. repeat split; try lia.
    + intros id Hid. rewrite Hother by lia. apply Hpast. exact Hid.
    + intros id Hid. rewrite Hother by lia. apply Hfresh. exact Hid.
    + rewrite (exec_approvals _ _ _ _ _ H Hcur). exact Happ.
  - unfold well_formed. rewrite Hcur. repeat split; try lia.
    + intros id Hid.
      destruct (decide (id = currentAssessmentId st)) as [->|Hne].
      * eapply exec_completed_current. exact H.
      * rewrite Hother by exact Hne. apply Hpast. lia.
    + intros id Hid. rewrite Hother by lia. apply Hfresh. lia.
    + rewrite Hother by lia. rewrite Hfresh by lia. reflexivity.
Qed.

Lemma well_formed_steps (st st' : State) :
  steps st st' -> well_formed st -> well_formed st'.
Proof.
  induction 1 as [st|st st1 st2 c msg evs _ IH Hexec]; intros Hwf;
    [exact Hwf|].
  eapply well_formed_exec; [apply IH; exact Hwf | exact Hexec].
Qed.

Lemma reachable_well_formed (st : State) : reachable st -> well_formed st.
Proof.
  intros [deploy Hsteps].
  eapply well_formed_steps; [exact Hsteps | apply well_formed_constructor].
Qed.

Lemma steps_trans (st1 st2 st3 : State) :
  steps st1 st2 -> steps st2 st3 -> steps st1 st3.
Proof.
  intros H12 H23. induction H23 as [st|st sta stb c msg evs _ IH Hexec];
    [exact H12|].
  eapply steps_call; [apply IH; exact H12 | exact Hexec].
Qed.

Lemma exec_goes (c : Call) (msg : Msg) (st : State) :
  succeeds c msg st = true ->
  exec c msg st = inr (storage_after c msg st, emitted c msg st).
Proof.
  unfold succeeds, storage_after, emitted.
  destruct (exec c msg st) as [r|[st' evs]]; [discriminate|reflexivity].
Qed.

Lemma all_succeed_steps (cs : list (Call * Msg)) (st : State) :
  all_succeed cs st = true -> steps st (storage_after_all cs st).
Proof.
  revert st. induction cs as [|[c msg] cs IH]; intros st H; cbn in H |- *.
  - apply steps_refl.
  - apply andb_true_iff in H as [Hc Hcs].
    eapply steps_trans; [|apply IH; exact Hcs].
    eapply steps_call; [apply steps_refl | apply exec_goes; exact Hc].
Qed.

Lemma reachable_all_succeed (cs : list (Call * Msg)) (deploy : Msg) :
  all_succeed cs (constructor deploy) = true ->
  reachable (storage_after_all cs (constructor deploy)).
Proof. intros H. exists deploy. apply all_succeed_steps. exact H. Qed.

Lemma reachable_steps (st st' : State) :
  reachable st -> steps st st' -> reachable st'.
Proof.
  intros [deploy H] H'. exists deploy. eapply steps_trans; eassumption.
Qed.

(** The current identifier never goes down. *)
Lemma steps_cur_mono (st st' : State) :
  steps st st' -> currentAssessmentId st <= currentAssessmentId st'.
Proof.
  induction 1 as [st|st st1 st2 c msg evs _ IH Hexec]; [lia|].
  destruct (exec_cur _ _ _ _ _ Hexec) as [Hc|(Hc & _)]; lia.
Qed.

(** Cycles below the current identifier are never written again. *)
Lemma steps_past_cycles (st st' : State) (id : Z) :
  steps st st' -> id < currentAssessmentId st ->
  assessment_at st' id = assessment_at st id.
Proof.
  induction 1 as [st|st st1 st2 c msg evs Hsteps IH Hexec]; intros Hid;
    [reflexivity|].
  rewrite <- IH by exact Hid.
  eapply exec_other_cycles; [exact Hexec|].
  pose proof (steps_cur_mono _ _ Hsteps). lia.
Qed.

(** A stored profile is never written a second time: the only write to
    [profiles] is the one of [submitRiskProfile], behind its guard. *)
Lemma exec_profile_stable (c : Call) (msg : Msg) (st st' : State)
  (evs : list Event) (id : Z) (who : address) :
  exec c msg st = inr (st', evs) ->
  hasSubmitted (profile_of (assessment_at st id) who) = true ->
  profile_of (assessment_at st' id) who = profile_of (assessment_at st id) who.
Proof.
  intros H Hsub. exec_cases H.
  - rewrite start_post_at. destruct (decide _) as [<-|_]; reflexivity.
  - destruct (submit_post_at _creditScore _income _employmentYears _debtRatio
                msg st) as (h1 & h2 & h3 & h4 & Hat).
    rewrite Hat. destruct (decide _) as [<-|_]; [|reflexivity].
    unfold profile_of, set_applicants, set_profile; cbn [profiles].
    rewrite lookup_insert. destruct (decide (msg_sender msg = who)) as [e|_];
      [|reflexivity].
    rewrite e in *. congruence.
  - reflexivity.
  - rewrite result_post_at. destruct (decide _) as [<-|_]; [|reflexivity].
    unfold profile_of. cbn [profiles set_assessmentCompleted].
    pose proof (approve_all_fields (currentAssessmentId st) riskThreshold0
                  (applicants (assessment_at st (currentAssessmentId st)))
                  (set_endTime (block_timestamp msg)
                     (set_finalRiskLevel riskThreshold0
                        (assessment_at st (currentAssessmentId st)))))
      as (_ & _ & _ & _ & _ & _ & _ & Hp).
    rewrite Hp. reflexivity.
  - rewrite pause_post_at. destruct (decide _) as [<-|_]; reflexivity.
Qed.

Lemma steps_profile_stable (st st' : State) (id : Z) (who : address) :
  steps st st' ->
  hasSubmitted (profile_of (assessment_at st id) who) = true ->
  profile_of (assessment_at st' id) who = profile_of (assessment_at st id) who.
Proof.
  induction 1 as [st|st st1 st2 c msg evs _ IH Hexec]; intros Hsub;
    [reflexivity|].
  rewrite <- IH by exact Hsub.
  eapply exec_profile_stable; [exact Hexec|]. rewrite IH; assumption.
Qed.

(** ** Properties *)

Lemma isBusinessHours_spec (t : Z) :
  isBusinessHours t = true <-> 9 <= (t / 3600) mod 24 < 17.
Proof.
  unfold isBusinessHours, BUSINESS_HOURS_START, BUSINESS_HOURS_END.
  rewrite andb_true_iff, Z.leb_le, Z.ltb_lt. reflexivity.
Qed.

(** C6. For every timestamp [t], [isBusinessHours t] (the submission window)
    holds exactly when [9 <= hourOf t < 17] with
    [hourOf t = (t / 3600) mod 24], the hour [getCurrentHour] reports, which
    lies in [0, 23]; and whenever the current cycle has its threshold set and
    is not completed, exactly one of the submission window and the
    evaluation window ([isEvaluationTimeActive]) holds at [t], the
    submission window of the cycle ([isAssessmentWindowActive]) being the
    business hours themselves. *)
Theorem window_gating (t : Z) :
  getCurrentHour t = (t / 3600) mod 24 /\
  0 <= getCurrentHour t <= 23 /\
  (isBusinessHours t = true <-> 9 <= getCurrentHour t < 17) /\
  forall st : State,
    thresholdSet (assessment_at st (currentAssessmentId st)) = true ->
    assessmentCompleted (assessment_at st (currentAssessmentId st)) = false ->
    xorb (isBusinessHours t) (isEvaluationTimeActive st t) = true /\
    isAssessmentWindowActive st t = isBusinessHours t /\
    isEvaluationTimeActive st t = negb (isBusinessHours t).
Proof.
  split; [reflexivity|]. split.
  { unfold getCurrentHour. pose proof (Z.mod_pos_bound (t / 3600) 24). lia. }
  split; [apply isBusinessHours_spec|].
  intros st Hset Hdone.
  unfold isEvaluationTimeActive, isAssessmentWindowActive.
  rewrite Hset, Hdone. cbn.
  destruct (isBusinessHours t); repeat split.
Qed.

(** C5. In every storage whose current cycle has its threshold set and is
    not completed, [startNewAssessment] reverts for every caller at every
    time and the storage stays exactly as it was; called by the owner during
    business hours (the two modifiers that run first), the revert is
    "Assessment already active", a [StateError]. *)
Theorem startNewAssessment_exclusive (st : State) (msg : Msg) :
  thresholdSet (assessment_at st (currentAssessmentId st)) = true ->
  assessmentCompleted (assessment_at st (currentAssessmentId st)) = false ->
  (exists r, exec StartNewAssessment msg st = inl r) /\
  storage_after StartNewAssessment msg st = st /\
  (msg_sender msg = owner st ->
   isBusinessHours (block_timestamp msg) = true ->
   exec StartNewAssessment msg st =
     inl (Require_failed "Assessment already active") /\
   error_kind (Require_failed "Assessment already active") = Some StateError).
Proof.
  intros Hset Hdone. unfold storage_after. rewrite exec_start, Hset, Hdone.
  cbn [negb orb].
  destruct (msg_sender msg =? owner st) eqn:Hown; cbn [negb].
  - destruct (isBusinessHours (block_timestamp msg)) eqn:Hbh; cbn [negb].
    + split; [eauto|]. split; [reflexivity|]. intros _ _. split; reflexivity.
    + split; [eauto|]. split; [reflexivity|]. intros _ Hf. discriminate Hf.
  - split; [eauto|]. split; [reflexivity|]. intros Ho _.
    apply Z.eqb_neq in Hown. contradiction.
Qed.

(** C7. While the submission window of the cycle is open,
    [submitRiskProfile] reverts with a [RangeError] as soon as the credit
    score exceeds 850 (so at 851), the employment years exceed 50 (at 51) or
    the debt ratio exceeds 100 (at 101), and leaves the storage as it was;
    with the boundary values 850, 50 and 100 and any income of 32 bits it
    goes through for a sender who has not submitted yet: the profile is
    stored, the sender appended to the list, and [ProfileSubmitted] emitted. *)
Theorem submitRiskProfile_ranges (st : State) (msg : Msg) :
  isAssessmentWindowActive st (block_timestamp msg) = true ->
  (forall cs inc ey dr,
     850 < cs \/ 50 < ey \/ 100 < dr ->
     exists r, exec (SubmitRiskProfile cs inc ey dr) msg st = inl r /\
               error_kind r = Some RangeError /\
               storage_after (SubmitRiskProfile cs inc ey dr) msg st = st) /\
  (forall inc,
     0 <= inc < 2 ^ 32 ->
     hasSubmitted (profile_of (assessment_at st (currentAssessmentId st))
                     (msg_sender msg)) = false ->
     exists st',
       exec (SubmitRiskProfile 850 inc 50 100) msg st =
         inr (st', [ProfileSubmitted (msg_sender msg) (currentAssessmentId st)]) /\
       currentAssessmentId st' = currentAssessmentId st /\
       hasSubmitted (profile_of (assessment_at st' (currentAssessmentId st))
                       (msg_sender msg)) = true /\
       applicants (assessment_at st' (currentAssessmentId st)) =
         applicants (assessment_at st (currentAssessmentId st)) ++
         [msg_sender msg]).
Proof.
  intros Hwin. split.
  - intros cs inc ey dr Hbad. unfold storage_after.
    rewrite exec_submit, Hwin. cbn [negb].
    destruct (cs <=? 850) eqn:Hcs; cbn [negb];
      [|eexists; repeat split; reflexivity].
    destruct (ey <=? 50) eqn:Hey; cbn [negb];
      [|eexists; repeat split; reflexivity].
    destruct (dr <=? 100) eqn:Hdr; cbn [negb];
      [|eexists; repeat split; reflexivity].
    lia.
  - intros inc _ Hnew. rewrite exec_submit, Hwin, Hnew. cbn.
    eexists. split; [reflexivity|].
    split; [apply submit_post_cur|].
    destruct (submit_post_at 850 inc 50 100 msg st) as (h1 & h2 & h3 & h4 & Hat).
    rewrite Hat. destruct (decide _) as [_|n]; [|contradiction].
    split; [|reflexivity].
    unfold profile_of, set_applicants, set_profile; cbn [profiles].
    rewrite lookup_insert_eq. reflexivity.
Qed.

(** C4. When the signature check accepts the callback (and the identifier is
    not the last [uint32]), [processAssessmentResult] goes through: it writes
    the revealed threshold as the final risk level of the current cycle,
    stamps the end time, walks the participant list of the cycle in order
    ([approve_all], flagging every participant whose score passes), marks the
    cycle completed, emits [AssessmentCompleted] with the number of approved
    entries and then [RiskLevelRevealed], and advances the current identifier
    by exactly one.  Nothing else in the cycle and no other cycle changes. *)
Theorem processAssessmentResult_completes (st : State) (requestId thr : Z)
  (sigs : bytes) (msg : Msg) (f' : fhe_state) :
  checkSignatures requestId thr sigs (fhe st) = Some f' ->
  currentAssessmentId st < UINT32_MAX ->
  let id := currentAssessmentId st in
  let a := assessment_at st id in
  exists st',
    exec (ProcessAssessmentResult requestId thr sigs) msg st =
      inr (st', [AssessmentCompleted id (count_approved id thr (applicants a));
                 RiskLevelRevealed id thr]) /\
    currentAssessmentId st' = id + 1 /\
    assessment_at st' id =
      set_assessmentCompleted true
        (approve_all id thr (applicants a)
           (set_endTime (block_timestamp msg) (set_finalRiskLevel thr a))) /\
    finalRiskLevel (assessment_at st' id) = thr /\
    endTime (assessment_at st' id) = block_timestamp msg /\
    assessmentCompleted (assessment_at st' id) = true /\
    applicants (assessment_at st' id) = applicants a /\
    profiles (assessment_at st' id) = profiles a /\
    (forall who,
       approved_of (assessment_at st' id) who = true <->
       approved_of a who = true \/
       (In who (applicants a) /\ risk_ok id thr who = true)) /\
    count_approved id thr (applicants a) =
      Z.of_nat (length (List.filter (risk_ok id thr) (applicants a))) /\
    (forall id', id' <> id -> assessment_at st' id' = assessment_at st id').
Proof.
  intros Hsig Hmax id a.
  exists (processAssessmentResult_post f' thr msg st).
  assert (Hid : assessment_at (processAssessmentResult_post f' thr msg st) id =
                set_assessmentCompleted true
                  (approve_all id thr (applicants a)
                     (set_endTime (block_timestamp msg)
                        (set_finalRiskLevel thr a)))).
  { rewrite result_post_at. destruct (decide _) as [_|n]; [reflexivity|].
    contradiction. }
  pose proof (approve_all_fields id thr (applicants a)
                (set_endTime (block_timestamp msg) (set_finalRiskLevel thr a)))
    as (_ & _ & _ & Hf & _ & He & Hl & Hp).
  split.
  { rewrite exec_result, Hsig.
    destruct (currentAssessmentId st <? UINT32_MAX) eqn:Hlt; [reflexivity|].
    apply Z.ltb_ge in Hlt. fold id in Hlt. lia. }
  split; [reflexivity|]. split; [exact Hid|].
  rewrite Hid. cbn [finalRiskLevel endTime assessmentCompleted applicants
                    profiles set_assessmentCompleted].
  split; [exact Hf|]. split; [exact He|]. split; [reflexivity|].
  split; [exact Hl|]. split; [exact Hp|].
  split.
  { intros who.
    change (approved_of (set_assessmentCompleted true ?x) who)
      with (approved_of x who).
    rewrite approved_of_approve_all. reflexivity. }
  split; [reflexivity|].
  intros id' Hne. rewrite result_post_at.
  destruct (decide _) as [e|_]; [|reflexivity]. fold id in e. congruence.
Qed.

(** C8. Once [submitRiskProfile] went through for a sender in a cycle, then
    after any further calls the profile stored for that sender in that cycle
    (the four handles, the flag, the timestamp, the identity) is the one the
    first submission stored, and as long as that cycle is the current one
    every further [submitRiskProfile] of the same sender reverts and leaves
    the storage as it was; when the window is open and the values are in
    range (the checks that run first) the revert is
    "Profile already submitted", a [DuplicateSubmissionError]. *)
Theorem submitRiskProfile_once (st st1 st2 : State) (cs inc ey dr : Z)
  (msg : Msg) (evs : list Event) :
  exec (SubmitRiskProfile cs inc ey dr) msg st = inr (st1, evs) ->
  steps st1 st2 ->
  let id := currentAssessmentId st in
  let who := msg_sender msg in
  hasSubmitted (profile_of (assessment_at st1 id) who) = true /\
  timestamp (profile_of (assessment_at st1 id) who) = block_timestamp msg /\
  applicant (profile_of (assessment_at st1 id) who) = who /\
  profile_of (assessment_at st2 id) who = profile_of (assessment_at st1 id) who /\
  (currentAssessmentId st2 = id ->
   forall cs' inc' ey' dr' msg',
     msg_sender msg' = who ->
     (exists r, exec (SubmitRiskProfile cs' inc' ey' dr') msg' st2 = inl r) /\
     storage_after (SubmitRiskProfile cs' inc' ey' dr') msg' st2 = st2 /\
     (isAssessmentWindowActive st2 (block_timestamp msg') = true ->
      cs' <= 850 -> ey' <= 50 -> dr' <= 100 ->
      exec (SubmitRiskProfile cs' inc' ey' dr') msg' st2 =
        inl (Require_failed "Profile already submitted") /\
      error_kind (Require_failed "Profile already submitted") =
        Some DuplicateSubmissionError)).
Proof.
  intros Hexec Hsteps id who.
  assert (Hst1 : hasSubmitted (profile_of (assessment_at st1 id) who) = true /\
                 timestamp (profile_of (assessment_at st1 id) who) =
                   block_timestamp msg /\
                 applicant (profile_of (assessment_at st1 id) who) = who).
  { rewrite exec_submit in Hexec.
    repeat match type of Hexec with
           | (if ?b then _ else _) = _ => destruct b eqn:?
           end; try discriminate Hexec.
    injection Hexec as <- <-.
    destruct (submit_post_at cs inc ey dr msg st) as (h1 & h2 & h3 & h4 & Hat).
    rewrite Hat. destruct (decide _) as [_|n]; [|contradiction].
    unfold profile_of, set_applicants, set_profile; cbn [profiles].
    rewrite lookup_insert_eq. repeat split. }
  destruct Hst1 as (Hsub & Hts & Happ).
  pose proof (steps_profile_stable st1 st2 id who Hsteps Hsub) as Hsame.
  split; [exact Hsub|]. split; [exact Hts|]. split; [exact Happ|].
  split; [exact Hsame|].
  intros Hcur cs' inc' ey' dr' msg' Hwho.
  assert (Hdup : hasSubmitted
                   (profile_of (assessment_at st2 (currentAssessmentId st2))
                      (msg_sender msg')) = true).
  { rewrite Hcur, Hwho, Hsame. exact Hsub. }
  split; [|split].
  - rewrite exec_submit, Hdup.
    repeat match goal with |- context [if ?b then _ else _] => destruct b end;
      eauto.
  - unfold storage_after. rewrite exec_submit, Hdup.
    repeat match goal with |- context [if ?b then _ else _] => destruct b end;
      reflexivity.
  - intros Hwin Hcs Hey Hdr. rewrite exec_submit, Hwin, Hdup. cbn [negb].
    destruct (cs' <=? 850) eqn:Hcs'; [|lia].
    destruct (ey' <=? 50) eqn:Hey'; [|lia].
    destruct (dr' <=? 100) eqn:Hdr'; [|lia].
    split; reflexivity.
Qed.

(** C9. If a participant has a profile in the current cycle and the owner
    pauses the cycle and then starts it again, the restart keeps the cycle
    identifier, empties the participant list and leaves the profile mapping
    of that identifier in place: the participant is not in the list of the
    restarted cycle, and their submission in it (window open, values in
    range) reverts with "Profile already submitted", a
    [DuplicateSubmissionError], the storage staying as it was. *)
Theorem restart_keeps_profiles (st : State) (who : address) (msg1 msg2 : Msg) :
  hasSubmitted (profile_of (assessment_at st (currentAssessmentId st)) who)
    = true ->
  msg_sender msg1 = owner st ->
  msg_sender msg2 = owner st ->
  isBusinessHours (block_timestamp msg2) = true ->
  exists st1 st2 evs,
    exec PauseCurrentAssessment msg1 st = inr (st1, []) /\
    exec StartNewAssessment msg2 st1 = inr (st2, evs) /\
    currentAssessmentId st2 = currentAssessmentId st /\
    applicants (assessment_at st2 (currentAssessmentId st2)) = [] /\
    ~ In who (applicants (assessment_at st2 (currentAssessmentId st2))) /\
    profile_of (assessment_at st2 (currentAssessmentId st2)) who =
      profile_of (assessment_at st (currentAssessmentId st)) who /\
    forall cs inc ey dr msg3,
      msg_sender msg3 = who ->
      isBusinessHours (block_timestamp msg3) = true ->
      cs <= 850 -> ey <= 50 -> dr <= 100 ->
      exec (SubmitRiskProfile cs inc ey dr) msg3 st2 =
        inl (Require_failed "Profile already submitted") /\
      error_kind (Require_failed "Profile already submitted") =
        Some DuplicateSubmissionError /\
      storage_after (SubmitRiskProfile cs inc ey dr) msg3 st2 = st2.
Proof.
  intros Hsub Ho1 Ho2 Hbh.
  set (st1 := pauseCurrentAssessment_post msg1 st).
  set (st2 := startNewAssessment_post msg2 st1).
  assert (Hcur1 : currentAssessmentId st1 = currentAssessmentId st)
    by reflexivity.
  assert (Hat1 : assessment_at st1 (currentAssessmentId st) =
                 set_endTime (block_timestamp msg1)
                   (set_assessmentCompleted true
                      (assessment_at st (currentAssessmentId st)))).
  { unfold st1. rewrite pause_post_at.
    destruct (decide _) as [_|n]; [reflexivity|contradiction]. }
  assert (Hcur2 : currentAssessmentId st2 = currentAssessmentId st).
  { unfold st2. rewrite start_post_cur. exact Hcur1. }
  assert (Hat2 : assessment_at st2 (currentAssessmentId st) =
                 set_applicants []
                   (set_startTime (block_timestamp msg2)
                      (set_assessmentCompleted false
                         (set_thresholdSet true
                            (set_riskThreshold (fst (randEuint8 (fhe st1)))
                               (assessment_at st1 (currentAssessmentId st))))))).
  { unfold st2. rewrite start_post_at, Hcur1.
    destruct (decide _) as [_|n]; [reflexivity|contradiction]. }
  exists st1, st2,
    [AssessmentStarted (currentAssessmentId st) (block_timestamp msg2)].
  split.
  { rewrite exec_pause. apply Z.eqb_eq in Ho1. rewrite Ho1. reflexivity. }
  split.
  { rewrite exec_start. change (owner st1) with (owner st).
    apply Z.eqb_eq in Ho2. rewrite Ho2, Hbh, Hcur1, Hat1. cbn.
    rewrite orb_true_r. reflexivity. }
  split; [exact Hcur2|].
  rewrite Hcur2, Hat2, Hat1.
  split; [reflexivity|]. split; [intros []|]. split; [reflexivity|].
  intros cs inc ey dr msg3 Hwho Hbh3 Hcs Hey Hdr.
  assert (Hexec : exec (SubmitRiskProfile cs inc ey dr) msg3 st2 =
                  inl (Require_failed "Profile already submitted")).
  { rewrite exec_submit. unfold isAssessmentWindowActive.
    rewrite Hcur2, Hat2, Hat1, Hwho. cbn. rewrite Hbh3.
    unfold profile_of in Hsub. cbn [negb].
    destruct (cs <=? 850) eqn:?; [|lia].
    destruct (ey <=? 50) eqn:?; [|lia].
    destruct (dr <=? 100) eqn:?; [|lia].
    cbn [negb]. unfold profile_of.
    cbn [profiles set_applicants set_startTime set_assessmentCompleted
         set_thresholdSet set_riskThreshold set_endTime].
    rewrite Hsub. reflexivity. }
  split; [exact Hexec|]. split; [reflexivity|].
  unfold storage_after. rewrite Hexec. reflexivity.
Qed.

(** C10. [pauseCurrentAssessment] called by the owner goes through in every
    storage, also when no cycle was started: it sets the completed flag and
    stamps the end time on the record of the current identifier, touching
    nothing else; [getAssessmentHistory] then reports that cycle as
    completed and [checkApprovalStatus] on it does not revert.  In a
    reachable storage the lookup answers [false] for every participant. *)
Theorem pauseCurrentAssessment_total (st : State) (msg : Msg) :
  msg_sender msg = owner st ->
  let id := currentAssessmentId st in
  let a := assessment_at st id in
  exists st',
    exec PauseCurrentAssessment msg st = inr (st', []) /\
    currentAssessmentId st' = id /\
    assessment_at st' id =
      set_endTime (block_timestamp msg) (set_assessmentCompleted true a) /\
    (forall id', id' <> id -> assessment_at st' id' = assessment_at st id') /\
    getAssessmentHistory st' id =
      (true, finalRiskLevel a, startTime a, block_timestamp msg,
       Z.of_nat (length (applicants a))) /\
    (forall who, checkApprovalStatus st' id who = inr (approved_of a who)) /\
    (reachable st -> forall who, checkApprovalStatus st' id who = inr false).
Proof.
  intros Ho id a.
  exists (pauseCurrentAssessment_post msg st).
  assert (Hat : assessment_at (pauseCurrentAssessment_post msg st) id =
                set_endTime (block_timestamp msg)
                  (set_assessmentCompleted true a)).
  { rewrite pause_post_at.
    destruct (decide _) as [_|n]; [reflexivity|contradiction]. }
  split.
  { rewrite exec_pause. apply Z.eqb_eq in Ho. rewrite Ho. reflexivity. }
  split; [reflexivity|]. split; [exact Hat|].
  split.
  { intros id' Hne. rewrite pause_post_at.
    destruct (decide _) as [e|_]; [|reflexivity]. fold id in e. congruence. }
  unfold getAssessmentHistory, checkApprovalStatus. rewrite Hat. cbn.
  split; [reflexivity|]. split; [reflexivity|].
  intros Hreach who. apply reachable_well_formed in Hreach.
  destruct Hreach as (_ & _ & _ & Happ).
  unfold approved_of. fold id a in Happ. cbn. rewrite Happ, lookup_empty.
  reflexivity.
Qed.

(** C1, as the contract has it.  [processAssessmentResult] keeps no record of
    request identifiers.  It goes through whenever the signature check
    accepts the request identifier, payload and proof and the cycle
    identifier is not the last [uint32]; it reverts only with the revert of
    the signature check or with the overflow panic, never with a
    [StateError].  After a callback went through, a second one with the same
    request identifier (whatever its payload) that the signature check
    accepts goes through as well: it completes the next cycle identifier with
    the delivered payload and advances the identifier once more. *)
Theorem processAssessmentResult_replay (st : State) (requestId thr : Z)
  (sigs : bytes) (msg : Msg) :
  (forall f',
     checkSignatures requestId thr sigs (fhe st) = Some f' ->
     currentAssessmentId st < UINT32_MAX ->
     exists st' evs,
       exec (ProcessAssessmentResult requestId thr sigs) msg st =
         inr (st', evs) /\
       currentAssessmentId st' = currentAssessmentId st + 1 /\
       assessmentCompleted (assessment_at st' (currentAssessmentId st)) = true) /\
  (forall r,
     exec (ProcessAssessmentResult requestId thr sigs) msg st = inl r ->
     error_kind r <> Some StateError /\
     ((r = FHE_revert /\ checkSignatures requestId thr sigs (fhe st) = None) \/
      (r = Panic_overflow /\ UINT32_MAX <= currentAssessmentId st))) /\
  (forall st1 evs1 thr2 sigs2 msg2 f2,
     exec (ProcessAssessmentResult requestId thr sigs) msg st =
       inr (st1, evs1) ->
     checkSignatures requestId thr2 sigs2 (fhe st1) = Some f2 ->
     currentAssessmentId st1 < UINT32_MAX ->
     exists st2 evs2,
       exec (ProcessAssessmentResult requestId thr2 sigs2) msg2 st1 =
         inr (st2, evs2) /\
       currentAssessmentId st2 = currentAssessmentId st + 2 /\
       assessmentCompleted (assessment_at st2 (currentAssessmentId st + 1))
         = true /\
       finalRiskLevel (assessment_at st2 (currentAssessmentId st + 1)) = thr2).
Proof.
  assert (Hgo : forall (s : State) (t : Z) (sg : bytes) (m : Msg) f',
            checkSignatures requestId t sg (fhe s) = Some f' ->
            currentAssessmentId s < UINT32_MAX ->
            exec (ProcessAssessmentResult requestId t sg) m s =
              inr (processAssessmentResult_post f' t m s,
                   [AssessmentCompleted (currentAssessmentId s)
                      (count_approved (currentAssessmentId s) t
                         (applicants (assessment_at s (currentAssessmentId s))));
                    RiskLevelRevealed (currentAssessmentId s) t])).
  { intros s t sg m f' Hsig Hmax. rewrite exec_result, Hsig.
    destruct (currentAssessmentId s <? UINT32_MAX) eqn:Hlt; [reflexivity|].
    apply Z.ltb_ge in Hlt. lia. }
  assert (Hdone : forall (s : State) (t : Z) (m : Msg) f',
            assessment_at (processAssessmentResult_post f' t m s)
              (currentAssessmentId s) =
            set_assessmentCompleted true
              (approve_all (currentAssessmentId s) t
                 (applicants (assessment_at s (currentAssessmentId s)))
                 (set_endTime (block_timestamp m)
                    (set_finalRiskLevel t
                       (assessment_at s (currentAssessmentId s)))))).
  { intros s t m f'. rewrite result_post_at.
    destruct (decide _) as [_|n]; [reflexivity|contradiction]. }
  split; [|split].
  - intros f' Hsig Hmax. eexists _, _. split; [apply (Hgo _ _ _ _ _ Hsig Hmax)|].
    split; [reflexivity|]. rewrite Hdone. reflexivity.
  - intros r Hr. rewrite exec_result in Hr.
    destruct (checkSignatures requestId thr sigs (fhe st)) as [f'|].
    + destruct (currentAssessmentId st <? UINT32_MAX) eqn:Hlt; [discriminate|].
      injection Hr as <-. apply Z.ltb_ge in Hlt.
      split; [discriminate|]. right. split; [reflexivity|exact Hlt].
    + injection Hr as <-. split; [discriminate|]. left. split; reflexivity.
  - intros st1 evs1 thr2 sigs2 msg2 f2 H1 Hsig2 Hmax2.
    assert (Hcur1 : currentAssessmentId st1 = currentAssessmentId st + 1).
    { destruct (exec_cur _ _ _ _ _ H1) as [Hc|(Hc & _)]; [|exact Hc].
      rewrite exec_result in H1.
      destruct (checkSignatures requestId thr sigs (fhe st)); [|discriminate].
      destruct (_ <? _); [|discriminate]. injection H1 as <- <-.
      cbn in Hc. lia. }
    eexists _, _. split; [apply (Hgo _ _ _ msg2 _ Hsig2 Hmax2)|].
    split; [cbn; lia|]. rewrite <- Hcur1, Hdone.
    pose proof (approve_all_fields (currentAssessmentId st1) thr2
                  (applicants (assessment_at st1 (currentAssessmentId st1)))
                  (set_endTime (block_timestamp msg2)
                     (set_finalRiskLevel thr2
                        (assessment_at st1 (currentAssessmentId st1)))))
      as (_ & _ & _ & Hf & _).
    split; [reflexivity|]. exact Hf.
Qed.

(** C2, as the contract has it.  In a reachable storage every cycle with an
    identifier from 1 up to the current one (excluded) is completed and is
    an immutable record: no sequence of later calls changes it.  A completed
    cycle that is still the current one (one completed by pause) is not
    immutable: [startNewAssessment] by the owner during business hours
    re-opens it in place, clearing the completed flag and overwriting the
    threshold, start time and participant list, and
    [pauseCurrentAssessment] stamps its end time again. *)
Theorem completed_cycles_record (st : State) :
  reachable st ->
  (forall id, 1 <= id < currentAssessmentId st ->
     assessmentCompleted (assessment_at st id) = true /\
     forall st', steps st st' -> assessment_at st' id = assessment_at st id) /\
  (forall msg,
     assessmentCompleted (assessment_at st (currentAssessmentId st)) = true ->
     msg_sender msg = owner st ->
     (isBusinessHours (block_timestamp msg) = true ->
      exists st' evs,
        exec StartNewAssessment msg st = inr (st', evs) /\
        currentAssessmentId st' = currentAssessmentId st /\
        assessmentCompleted (assessment_at st' (currentAssessmentId st))
          = false /\
        thresholdSet (assessment_at st' (currentAssessmentId st)) = true /\
        startTime (assessment_at st' (currentAssessmentId st))
          = block_timestamp msg /\
        applicants (assessment_at st' (currentAssessmentId st)) = []) /\
     (exists st',
        exec PauseCurrentAssessment msg st = inr (st', []) /\
        currentAssessmentId st' = currentAssessmentId st /\
        endTime (assessment_at st' (currentAssessmentId st))
          = block_timestamp msg)).
Proof.
  intros Hreach. pose proof (reachable_well_formed st Hreach) as (_ & Hpast & _).
  split.
  - intros id Hid. split; [apply Hpast; exact Hid|].
    intros st' Hsteps. apply steps_past_cycles; [exact Hsteps|lia].
  - intros msg Hdone Ho. apply Z.eqb_eq in Ho. split.
    + intros Hbh. eexists _, _. split.
      { rewrite exec_start, Ho, Hbh, Hdone. cbn. rewrite orb_true_r.
        reflexivity. }
      split; [apply start_post_cur|]. rewrite start_post_at.
      destruct (decide _) as [_|n]; [|contradiction]. repeat split.
    + eexists. split; [rewrite exec_pause, Ho; reflexivity|].
      split; [reflexivity|]. rewrite pause_post_at.
      destruct (decide _) as [_|n]; [|contradiction]. reflexivity.
Qed.

(** C3, as the contract has it.  In a reachable storage the current
    identifier is between 1 and the last [uint32]; at most one cycle is
    active (threshold set, not completed) and it is the current one; every
    cycle from 1 up to the current one (excluded) is completed and nothing
    is written above it.  The identifier moves only in the callback, by one.
    [startNewAssessment] begins the new cycle under the current identifier
    itself: no record of another identifier changes, so every cycle
    completed by a callback is retained, while a current cycle completed by
    pause is restarted under its own identifier. *)
Theorem cycle_identifiers (st : State) :
  reachable st ->
  1 <= currentAssessmentId st <= UINT32_MAX /\
  (forall id, active st id = true -> id = currentAssessmentId st) /\
  (forall id, 1 <= id < currentAssessmentId st ->
     assessmentCompleted (assessment_at st id) = true) /\
  (forall id, currentAssessmentId st < id ->
     assessment_at st id = zero_assessment) /\
  (forall c msg st' evs,
     exec c msg st = inr (st', evs) ->
     currentAssessmentId st' = currentAssessmentId st \/
     (currentAssessmentId st' = currentAssessmentId st + 1 /\
      exists requestId thr sigs,
        c = ProcessAssessmentResult requestId thr sigs)) /\
  (forall msg st' evs,
     exec StartNewAssessment msg st = inr (st', evs) ->
     currentAssessmentId st' = currentAssessmentId st /\
     active st' (currentAssessmentId st) = true /\
     (forall id, id <> currentAssessmentId st ->
        assessment_at st' id = assessment_at st id)).
Proof.
  intros Hreach.
  pose proof (reachable_well_formed st Hreach) as (Hrange & Hpast & Hfresh & _).
  split; [exact Hrange|]. split.
  { intros id Hact. unfold active in Hact.
    apply andb_true_iff in Hact as [Hset Hnot].
    destruct (Z.lt_trichotomy id (currentAssessmentId st)) as [Hlt|[Heq|Hgt]];
      [|exact Heq|].
    - destruct (Z_lt_le_dec id 1) as [Hlow|Hhigh].
      + rewrite Hfresh in Hset by lia. discriminate Hset.
      + rewrite Hpast in Hnot by lia. discriminate Hnot.
    - rewrite Hfresh in Hset by lia. discriminate Hset. }
  split; [exact Hpast|]. split; [intros id Hid; apply Hfresh; lia|].
  split.
  { intros c msg st' evs H.
    destruct (exec_cur _ _ _ _ _ H) as [Hc|(Hc & _ & Hcb)]; [left|right]; auto. }
  intros msg st' evs H.
  split.
  { destruct (exec_cur _ _ _ _ _ H) as [Hc|(_ & _ & r & t & s & Hcb)];
      [exact Hc|discriminate Hcb]. }
  split.
  { rewrite exec_start in H.
    repeat match type of H with
           | (if ?b then _ else _) = _ => destruct b eqn:?
           end; try discriminate H.
    injection H as <- <-. unfold active. rewrite start_post_at.
    destruct (decide _) as [_|n]; [reflexivity|contradiction]. }
  intros id Hne. eapply exec_other_cycles; [exact H|exact Hne].
Qed.

(** ** Further properties of the contract *)

(** *** Participant lists, profiles and approvals *)

Lemma NoDup_snoc (l : list address) (x : address) :
  List.NoDup l -> ~ In x l -> List.NoDup (l ++ [x]).
Proof.
  induction l as [|y l IH]; intros Hnd Hx; cbn.
  - constructor; [intros []|constructor].
  - inversion Hnd as [|y' l' Hy Hl]; subst. constructor.
    + rewrite in_app_iff. cbn. intros [Hin|[->|[]]]; [contradiction|].
      apply Hx. left. reflexivity.
    + apply IH; [exact Hl|]. intros Hin. apply Hx. right. exact Hin.
Qed.

Lemma coherent_constructor (deploy : Msg) : coherent (constructor deploy).
Proof.
  unfold coherent, constructor, assessment_at, profile_of, approved_of; cbn.
  repeat split; intros; rewrite ?lookup_empty in *; cbn in *;
    try constructor; try contradiction; try discriminate; try lia;
    try reflexivity.
Qed.

Lemma coherent_exec (c : Call) (msg : Msg) (st st' : State) (evs : list Event) :
  well_formed st -> coherent st -> exec c msg st = inr (st', evs) ->
  coherent st'.
Proof.
  intros (Hrange & _ & _ & Hnone) (Hnd & Hlisted & Hself & Hunset & Happ) H.
  assert (Hpast : forall id who,
            1 <= id < currentAssessmentId st ->
            (approved_of (assessment_at st id) who = true <->
             In who (applicants (assessment_at st id)) /\
             risk_ok id (finalRiskLevel (assessment_at st id)) who = true))
    by exact Happ.
  exec_cases H.
  - (* startNewAssessment *)
    unfold coherent. rewrite start_post_cur.
    split; [|split; [|split; [|split]]].
    + intros id. rewrite start_post_at. destruct (decide _) as [<-|_];
        [cbn; constructor|apply Hnd].
    + intros id who. rewrite start_post_at. destruct (decide _) as [<-|_];
        [cbn; intros []|apply Hlisted].
    + intros id who. rewrite start_post_at. destruct (decide _) as [<-|_];
        [exact (Hself _ who)|apply Hself].
    + intros id. rewrite start_post_at. destruct (decide _) as [<-|_];
        [cbn; intros Hf; discriminate Hf|apply Hunset].
    + intros id who Hid. rewrite start_post_at.
      destruct (decide _) as [e|_]; [lia|]. apply Hpast. exact Hid.
  - (* submitRiskProfile *)
    destruct (submit_post_at _creditScore _income _employmentYears _debtRatio
                msg st) as (h1 & h2 & h3 & h4 & Hat).
    assert (Hwin : thresholdSet (assessment_at st (currentAssessmentId st))
                   = true).
    { unfold isAssessmentWindowActive in *.
      destruct (thresholdSet _); [reflexivity|discriminate]. }
    assert (Hfresh : ~ In (msg_sender msg)
                       (applicants (assessment_at st (currentAssessmentId st)))).
    { intros Hin. apply Hlisted in Hin. congruence. }
    unfold coherent. rewrite submit_post_cur.
    split; [|split; [|split; [|split]]].
    + intros id. rewrite Hat. destruct (decide _) as [<-|_]; [|apply Hnd].
      cbn. apply NoDup_snoc; [apply Hnd|exact Hfresh].
    + intros id who. rewrite Hat. destruct (decide _) as [<-|_];
        [|apply Hlisted].
      unfold profile_of, set_applicants, set_profile;
        cbn [applicants profiles]. rewrite lookup_insert.
      destruct (decide (msg_sender msg = who)) as [_|Hne]; [reflexivity|].
      rewrite in_app_iff. cbn. intros [Hin|[?|[]]]; [|contradiction].
      apply Hlisted in Hin. exact Hin.
    + intros id who. rewrite Hat. destruct (decide _) as [<-|_];
        [|apply Hself].
      unfold profile_of, set_applicants, set_profile; cbn [profiles].
      rewrite lookup_insert.
      destruct (decide (msg_sender msg = who)) as [e|Hne];
        [intros _; exact e|apply Hself].
    + intros id. rewrite Hat. destruct (decide _) as [<-|_]; [|apply Hunset].
      cbn. intros Hf. congruence.
    + intros id who Hid. rewrite Hat.
      destruct (decide _) as [e|_]; [lia|]. apply Hpast. exact Hid.
  - (* processRiskAssessment *)
    unfold coherent.
    split; [exact Hnd|]. split; [exact Hlisted|]. split; [exact Hself|].
    split; [exact Hunset|exact Hpast].
  - (* processAssessmentResult *)
    pose proof (approve_all_fields (currentAssessmentId st) riskThreshold0
                  (applicants (assessment_at st (currentAssessmentId st)))
                  (set_endTime (block_timestamp msg)
                     (set_finalRiskLevel riskThreshold0
                        (assessment_at st (currentAssessmentId st)))))
      as (_ & Hts & _ & Hfl & _ & _ & Hl & Hp).
    unfold coherent.
    split; [|split; [|split; [|split]]].
    + intros id. rewrite result_post_at. destruct (decide _) as [<-|_];
        [|apply Hnd].
      cbn. rewrite Hl. apply Hnd.
    + intros id who. rewrite result_post_at. destruct (decide _) as [<-|_];
        [|apply Hlisted].
      unfold profile_of. cbn. rewrite Hl, Hp. apply Hlisted.
    + intros id who. rewrite result_post_at. destruct (decide _) as [<-|_];
        [|apply Hself].
      unfold profile_of. cbn. rewrite Hp. apply Hself.
    + intros id. rewrite result_post_at. destruct (decide _) as [<-|_];
        [|apply Hunset].
      cbn. rewrite Hts, Hl. apply Hunset.
    + intros id who Hid. cbn in Hid. rewrite result_post_at.
      destruct (decide _) as [<-|Hne]; [|apply Hpast; lia].
      assert (Hno : approved_of (assessment_at st (currentAssessmentId st)) who
                    = false).
      { unfold approved_of. rewrite Hnone, lookup_empty. reflexivity. }
      cbn in Hfl, Hl.
      change (approved_of (set_assessmentCompleted true ?x) who)
        with (approved_of x who).
      cbn [finalRiskLevel applicants set_assessmentCompleted].
      rewrite approved_of_approve_all, Hl, Hfl.
      change (approved_of (set_endTime ?t (set_finalRiskLevel ?v ?a)) who)
        with (approved_of a who).
      rewrite Hno. split; [intros [Hf|Hok]; [discriminate Hf|exact Hok]|].
      intros Hok. right. exact Hok.
  - (* pauseCurrentAssessment *)
    unfold coherent.
    split; [|split; [|split; [|split]]].
    + intros id. rewrite pause_post_at. destruct (decide _) as [<-|_];
        [exact (Hnd _)|apply Hnd].
    + intros id who. rewrite pause_post_at. destruct (decide _) as [<-|_];
        [exact (Hlisted _ who)|apply Hlisted].
    + intros id who. rewrite pause_post_at. destruct (decide _) as [<-|_];
        [exact (Hself _ who)|apply Hself].
    + intros id. rewrite pause_post_at. destruct (decide _) as [<-|_];
        [exact (Hunset _)|apply Hunset].
    + intros id who Hid. rewrite pause_post_at.
      destruct (decide _) as [e|_]; [cbn in Hid; lia|]. apply Hpast. exact Hid.
Qed.

Lemma coherent_steps (st st' : State) :
  steps st st' -> well_formed st -> coherent st -> coherent st'.
Proof.
  induction 1 as [st|st st1 st2 c msg evs Hsteps IH Hexec]; intros Hwf Hco;
    [exact Hco|].
  eapply coherent_exec; [|apply IH; assumption|exact Hexec].
  eapply well_formed_steps; [exact Hsteps|exact Hwf].
Qed.

Lemma reachable_coherent (st : State) : reachable st -> coherent st.
Proof.
  intros [deploy Hsteps].
  eapply coherent_steps;
    [exact Hsteps | apply well_formed_constructor | apply coherent_constructor].
Qed.

(** *** The time gate *)

(** X1. A timestamp on day [d] at [h] hours and [s] seconds decodes to the
    hour [h], and falls into business hours exactly when [9 <= h < 17]:
    the window depends on the time of day alone and repeats every day. *)
Theorem time_of_day (d h s : Z) :
  0 <= h < 24 -> 0 <= s < 3600 ->
  getCurrentHour (d * 86400 + h * 3600 + s) = h /\
  (isBusinessHours (d * 86400 + h * 3600 + s) = true <-> 9 <= h < 17) /\
  isBusinessHours (d * 86400 + h * 3600 + s) = isBusinessHours (h * 3600).
Proof.
  intros Hh Hs.
  assert (Hhour : forall d', (d' * 86400 + h * 3600 + s) / 3600 mod 24 = h).
  { intros d'.
    replace (d' * 86400 + h * 3600 + s) with ((d' * 24 + h) * 3600 + s) by lia.
    rewrite Z.div_add_l by lia. rewrite (Z.div_small s 3600) by lia.
    rewrite Z.add_0_r, Z.add_comm, Z.mod_add by lia.
    apply Z.mod_small. exact Hh. }
  split; [apply Hhour|]. split.
  - rewrite isBusinessHours_spec, Hhour. reflexivity.
  - unfold isBusinessHours. rewrite Hhour.
    specialize (Hhour 0). cbn in Hhour.
    replace (h * 3600) with (h * 3600 + 0) by lia.
    assert (H0 : (h * 3600 + 0) / 3600 mod 24 = h).
    { rewrite Z.div_add_l by lia. cbn. rewrite Z.add_0_r.
      apply Z.mod_small. exact Hh. }
    rewrite H0. reflexivity.
Qed.

(** *** Who may call what *)

(** X2. [startNewAssessment] and [pauseCurrentAssessment] called by anyone
    but the owner revert with "Not authorized", an [AuthorizationError], at
    any time and in any state of the cycle, and write nothing. *)
Theorem only_owner (st : State) (msg : Msg) :
  msg_sender msg <> owner st ->
  exec StartNewAssessment msg st = inl (Require_failed "Not authorized") /\
  exec PauseCurrentAssessment msg st = inl (Require_failed "Not authorized") /\
  error_kind (Require_failed "Not authorized") = Some AuthorizationError /\
  storage_after StartNewAssessment msg st = st /\
  storage_after PauseCurrentAssessment msg st = st.
Proof.
  intros Hne. apply Z.eqb_neq in Hne. unfold storage_after.
  rewrite exec_start, exec_pause, Hne. repeat split.
Qed.

Lemma exec_lastAssessmentTime (c : Call) (msg : Msg) (st st' : State)
  (evs : list Event) :
  exec c msg st = inr (st', evs) -> lastAssessmentTime st' = lastAssessmentTime st.
Proof.
  intros H. exec_cases H; try reflexivity.
  - unfold startNewAssessment_post. destruct (randEuint8 (fhe st)). reflexivity.
  - unfold submitRiskProfile_post.
    repeat match goal with |- context [let (_, _) := ?p in _] => destruct p end.
    reflexivity.
Qed.

(** X3. The owner and [lastAssessmentTime] are written by the constructor
    only: after any sequence of calls the owner is still the deployer and
    [lastAssessmentTime] still the deployment time. *)
Theorem deployment_constants (st st' : State) :
  steps st st' ->
  owner st' = owner st /\ lastAssessmentTime st' = lastAssessmentTime st.
Proof.
  induction 1 as [st|st st1 st2 c msg evs _ [IHo IHt] Hexec];
    [split; reflexivity|].
  rewrite <- IHo, <- IHt. split.
  - eapply exec_owner. exact Hexec.
  - eapply exec_lastAssessmentTime. exact Hexec.
Qed.

(** X4. [processRiskAssessment] and [processAssessmentResult] do not look
    at the caller: two calls at the same block time have the same outcome
    whoever sends them. *)
Theorem evaluation_open_to_any_caller (st : State) (msg msg' : Msg)
  (requestId thr : Z) (sigs : bytes) :
  block_timestamp msg = block_timestamp msg' ->
  exec ProcessRiskAssessment msg st = exec ProcessRiskAssessment msg' st /\
  exec (ProcessAssessmentResult requestId thr sigs) msg st =
  exec (ProcessAssessmentResult requestId thr sigs) msg' st.
Proof.
  intros Ht. rewrite !exec_process, !exec_result.
  unfold processAssessmentResult_post. rewrite Ht. split; reflexivity.
Qed.

(** *** processRiskAssessment *)

(** X5. Outside the evaluation window [processRiskAssessment] reverts with
    "Not evaluation time" and writes nothing; and whatever the state, it
    never reverts with "No threshold set" or "Assessment already
    completed": the modifier has already excluded both cases, so the only
    other failure is a revert of the decryption request. *)
Theorem processRiskAssessment_guards (st : State) (msg : Msg) :
  (isEvaluationTimeActive st (block_timestamp msg) = false ->
   exec ProcessRiskAssessment msg st =
     inl (Require_failed "Not evaluation time") /\
   storage_after ProcessRiskAssessment msg st = st) /\
  exec ProcessRiskAssessment msg st <> inl (Require_failed "No threshold set") /\
  exec ProcessRiskAssessment msg st <>
    inl (Require_failed "Assessment already completed") /\
  (forall r, exec ProcessRiskAssessment msg st = inl r ->
             r = Require_failed "Not evaluation time" \/ r = FHE_revert).
Proof.
  unfold storage_after. rewrite exec_process.
  destruct (isEvaluationTimeActive st (block_timestamp msg)) eqn:Hev;
    cbn [negb].
  - unfold isEvaluationTimeActive in Hev.
    apply andb_true_iff in Hev as [Hev Hnot].
    apply andb_true_iff in Hev as [_ Hset].
    apply negb_true_iff in Hnot. rewrite Hset, Hnot. cbn [negb].
    destruct (requestDecryption _ _) as [[rid f']|].
    + repeat split; discriminate.
    + repeat split; try discriminate. intros r Hr. injection Hr as <-.
      right. reflexivity.
  - repeat split; try discriminate. intros r Hr. injection Hr as <-.
    left. reflexivity.
Qed.

(** X6. [processRiskAssessment] goes through exactly when the evaluation
    window is active and the library accepts the decryption request for the
    threshold handle of the current cycle; it then emits no event and
    changes nothing of the contract but the state of the library. *)
Theorem processRiskAssessment_effect (st : State) (msg : Msg) :
  (succeeds ProcessRiskAssessment msg st = true <->
   isEvaluationTimeActive st (block_timestamp msg) = true /\
   exists rid f',
     requestDecryption
       [riskThreshold (assessment_at st (currentAssessmentId st))] (fhe st)
     = Some (rid, f')) /\
  (forall st' evs,
     exec ProcessRiskAssessment msg st = inr (st', evs) ->
     evs = [] /\
     owner st' = owner st /\
     currentAssessmentId st' = currentAssessmentId st /\
     assessments st' = assessments st /\
     exists rid,
       requestDecryption
         [riskThreshold (assessment_at st (currentAssessmentId st))] (fhe st)
       = Some (rid, fhe st')).
Proof.
  unfold succeeds. rewrite exec_process.
  destruct (isEvaluationTimeActive st (block_timestamp msg)) eqn:Hev;
    cbn [negb].
  - pose proof Hev as Hev'. unfold isEvaluationTimeActive in Hev'.
    apply andb_true_iff in Hev' as [Hev' Hnot].
    apply andb_true_iff in Hev' as [_ Hset].
    apply negb_true_iff in Hnot. rewrite Hset, Hnot. cbn [negb].
    destruct (requestDecryption _ _) as [[rid f']|].
    + split.
      * split; [intros _; split; [reflexivity|eauto]|reflexivity].
      * intros st' evs Hr. injection Hr as <- <-. repeat split. eauto.
    + split.
      * split; [discriminate|]. intros [_ (rid & f' & Hf)]. discriminate Hf.
      * intros st' evs Hr. discriminate Hr.
  - split.
    + split; [discriminate|]. intros [Hf _]. discriminate Hf.
    + intros st' evs Hr. discriminate Hr.
Qed.

(** *** Submissions and starts *)

(** X7. When the threshold of the current cycle is not set, or the cycle is
    completed, or the block time is outside business hours, the submission
    window is closed and [submitRiskProfile] reverts with
    "Assessment window not active", a [TimingError], whatever the values and
    the sender; nothing is recorded. *)
Theorem submit_outside_window (st : State) (msg : Msg) (cs inc ey dr : Z) :
  thresholdSet (assessment_at st (currentAssessmentId st)) = false \/
  assessmentCompleted (assessment_at st (currentAssessmentId st)) = true \/
  isBusinessHours (block_timestamp msg) = false ->
  isAssessmentWindowActive st (block_timestamp msg) = false /\
  exec (SubmitRiskProfile cs inc ey dr) msg st =
    inl (Require_failed "Assessment window not active") /\
  error_kind (Require_failed "Assessment window not active")
    = Some TimingError /\
  storage_after (SubmitRiskProfile cs inc ey dr) msg st = st.
Proof.
  intros Hclosed.
  assert (Hwin : isAssessmentWindowActive st (block_timestamp msg) = false).
  { unfold isAssessmentWindowActive.
    destruct (thresholdSet _); cbn [negb]; [|reflexivity].
    destruct (assessmentCompleted _); [reflexivity|].
    destruct Hclosed as [Hf|[Hf|Hf]]; [discriminate|discriminate|exact Hf]. }
  unfold storage_after. rewrite exec_submit, Hwin. repeat split.
Qed.

(** X8. [startNewAssessment] goes through exactly when the caller is the
    owner, the block time is in business hours and the current cycle has no
    threshold yet or is completed.  It then emits [AssessmentStarted], keeps
    the identifier, stores the handle [FHE.randEuint8] returned and grants
    the contract access to it, sets the threshold flag, clears the completed
    flag, stamps the start time and empties the participant list; the final
    risk level, the end time, the profiles and the approvals of the record
    stay as they were. *)
Theorem startNewAssessment_goes (st : State) (msg : Msg) :
  (succeeds StartNewAssessment msg st = true <->
   msg_sender msg = owner st /\
   isBusinessHours (block_timestamp msg) = true /\
   (thresholdSet (assessment_at st (currentAssessmentId st)) = false \/
    assessmentCompleted (assessment_at st (currentAssessmentId st)) = true)) /\
  (forall st' evs,
     exec StartNewAssessment msg st = inr (st', evs) ->
     let id := currentAssessmentId st in
     let a := assessment_at st id in
     let a' := assessment_at st' id in
     evs = [AssessmentStarted id (block_timestamp msg)] /\
     currentAssessmentId st' = id /\
     riskThreshold a' = fst (randEuint8 (fhe st)) /\
     fhe st' = allowThis (fst (randEuint8 (fhe st))) (snd (randEuint8 (fhe st))) /\
     thresholdSet a' = true /\
     assessmentCompleted a' = false /\
     startTime a' = block_timestamp msg /\
     applicants a' = [] /\
     finalRiskLevel a' = finalRiskLevel a /\
     endTime a' = endTime a /\
     profiles a' = profiles a /\
     approvedApplicants a' = approvedApplicants a).
Proof.
  split.
  - unfold succeeds. rewrite exec_start.
    destruct (msg_sender msg =? owner st) eqn:Ho; cbn [negb].
    + apply Z.eqb_eq in Ho.
      destruct (isBusinessHours (block_timestamp msg)); cbn [negb].
      * destruct (thresholdSet _); destruct (assessmentCompleted _); cbn;
          split; try discriminate; try (intros _; repeat split; auto; fail);
          intros (_ & _ & [Hf|Hf]); discriminate Hf.
      * split; [discriminate|]. intros (_ & Hf & _). discriminate Hf.
    + apply Z.eqb_neq in Ho. split; [discriminate|].
      intros (Hf & _). contradiction.
  - intros st' evs H id a a'. rewrite exec_start in H.
    repeat match type of H with
           | (if ?b then _ else _) = _ => destruct b eqn:?
           end; try discriminate H.
    injection H as <- <-. unfold a'. rewrite start_post_at.
    destruct (decide _) as [_|n]; [|contradiction].
    split; [reflexivity|]. split; [apply start_post_cur|].
    split; [reflexivity|]. split; [|repeat split].
    unfold startNewAssessment_post. destruct (randEuint8 (fhe st)).
    reflexivity.
Qed.

(** X9. [submitRiskProfile] goes through exactly when the submission
    window is active, the three bounded values are within 850, 50 and 100
    and the sender has no profile in the current cycle.  It then emits
    [ProfileSubmitted] and leaves the profiles of all other participants,
    the approvals and the other fields of the cycle as they were. *)
Theorem submitRiskProfile_goes (st : State) (msg : Msg) (cs inc ey dr : Z) :
  (succeeds (SubmitRiskProfile cs inc ey dr) msg st = true <->
   isAssessmentWindowActive st (block_timestamp msg) = true /\
   cs <= 850 /\ ey <= 50 /\ dr <= 100 /\
   hasSubmitted (profile_of (assessment_at st (currentAssessmentId st))
                   (msg_sender msg)) = false) /\
  (forall st' evs,
     exec (SubmitRiskProfile cs inc ey dr) msg st = inr (st', evs) ->
     let id := currentAssessmentId st in
     let a := assessment_at st id in
     let a' := assessment_at st' id in
     evs = [ProfileSubmitted (msg_sender msg) id] /\
     (forall who, who <> msg_sender msg -> profile_of a' who = profile_of a who) /\
     approvedApplicants a' = approvedApplicants a /\
     riskThreshold a' = riskThreshold a /\
     thresholdSet a' = thresholdSet a /\
     assessmentCompleted a' = assessmentCompleted a /\
     finalRiskLevel a' = finalRiskLevel a /\
     startTime a' = startTime a /\
     endTime a' = endTime a).
Proof.
  split.
  - unfold succeeds. rewrite exec_submit.
    destruct (isAssessmentWindowActive st (block_timestamp msg)); cbn [negb];
      [|split; [discriminate|intros (Hf & _); discriminate Hf]].
    destruct (cs <=? 850) eqn:Hcs; cbn [negb];
      [|split; [discriminate|intros (_ & Hf & _); lia]].
    destruct (ey <=? 50) eqn:Hey; cbn [negb];
      [|split; [discriminate|intros (_ & _ & Hf & _); lia]].
    destruct (dr <=? 100) eqn:Hdr; cbn [negb];
      [|split; [discriminate|intros (_ & _ & _ & Hf & _); lia]].
    destruct (hasSubmitted _);
      [split; [discriminate|intros (_ & _ & _ & _ & Hf); discriminate Hf]|].
    split; [intros _; repeat split; lia|reflexivity].
  - intros st' evs H id a a'. rewrite exec_submit in H.
    repeat match type of H with
           | (if ?b then _ else _) = _ => destruct b eqn:?
           end; try discriminate H.
    injection H as <- <-.
    destruct (submit_post_at cs inc ey dr msg st) as (h1 & h2 & h3 & h4 & Hat).
    unfold a'. rewrite Hat. destruct (decide _) as [_|n]; [|contradiction].
    split; [reflexivity|]. split; [|repeat split].
    intros who Hne. unfold profile_of, set_applicants, set_profile;
      cbn [profiles]. rewrite lookup_insert_ne by congruence. reflexivity.
Qed.

(** X10. In every reachable storage and for every cycle identifier, the
    participant list has no repetition, everybody on it has a submitted
    profile that carries their own identity, and a cycle whose threshold was
    never set has an empty list. *)
Theorem applicants_coherent (st : State) (id : Z) :
  reachable st ->
  List.NoDup (applicants (assessment_at st id)) /\
  (forall who,
     In who (applicants (assessment_at st id)) ->
     hasSubmitted (profile_of (assessment_at st id) who) = true /\
     applicant (profile_of (assessment_at st id) who) = who) /\
  (thresholdSet (assessment_at st id) = false ->
   applicants (assessment_at st id) = []).
Proof.
  intros Hreach.
  destruct (reachable_coherent st Hreach) as (Hnd & Hlisted & Hself & Hunset & _).
  split; [apply Hnd|]. split; [|apply Hunset].
  intros who Hin. pose proof (Hlisted id who Hin) as Hsub.
  split; [exact Hsub|apply Hself; exact Hsub].
Qed.

(** *** The evaluation *)

Lemma risk_ok_mono (id thr thr' : Z) (who : address) :
  thr <= thr' -> risk_ok id thr who = true -> risk_ok id thr' who = true.
Proof. unfold risk_ok. rewrite !Z.leb_le. lia. Qed.

Lemma risk_ok_100 (id thr : Z) (who : address) :
  100 <= thr -> risk_ok id thr who = true.
Proof.
  intros Hthr. unfold risk_ok. apply Z.leb_le.
  pose proof (Z.mod_pos_bound (keccak256 (abi_encodePacked who id)) 101).
  rewrite Z.mod_small; lia.
Qed.

Lemma filter_length_mono (f g : address -> bool) (l : list address) :
  (forall x, f x = true -> g x = true) ->
  (length (List.filter f l) <= length (List.filter g l) <= length l)%nat.
Proof.
  intros Hfg. induction l as [|x l IH]; cbn; [lia|].
  destruct (f x) eqn:Hf.
  - rewrite (Hfg x Hf). cbn. lia.
  - destruct (g x); cbn; lia.
Qed.

(** X11. The count [AssessmentCompleted] carries is between 0 and the
    length of the participant list, and a larger threshold never gives a
    smaller count: a participant approved under a threshold is approved
    under every larger one. *)
Theorem approvedCount_bounds (st st' : State) (requestId thr : Z)
  (sigs : bytes) (msg : Msg) (evs : list Event) :
  exec (ProcessAssessmentResult requestId thr sigs) msg st = inr (st', evs) ->
  let id := currentAssessmentId st in
  let l := applicants (assessment_at st id) in
  exists n,
    evs = [AssessmentCompleted id n; RiskLevelRevealed id thr] /\
    0 <= n <= Z.of_nat (length l) /\
    (forall thr', thr <= thr' -> n <= count_approved id thr' l) /\
    (forall thr' who,
       thr <= thr' -> risk_ok id thr who = true -> risk_ok id thr' who = true).
Proof.
  intros H id l. rewrite exec_result in H.
  destruct (checkSignatures _ _ _ _) as [f'|]; [|discriminate].
  destruct (_ <? _); [|discriminate]. injection H as <- <-.
  exists (count_approved id thr l). split; [reflexivity|].
  unfold count_approved. split; [|split].
  - pose proof (filter_length_mono (risk_ok id thr) (risk_ok id thr) l
                  (fun _ Hx => Hx)). lia.
  - intros thr' Hle.
    pose proof (filter_length_mono (risk_ok id thr) (risk_ok id thr') l
                  (fun x => risk_ok_mono id thr thr' x Hle)). lia.
  - intros thr' who Hle. apply risk_ok_mono. exact Hle.
Qed.

(** X12. The placeholder score is at most 100, so a callback that reveals
    a threshold of 100 or more approves every participant on the list and
    reports the length of the list as the count. *)
Theorem threshold_100_approves_all (st st' : State) (requestId thr : Z)
  (sigs : bytes) (msg : Msg) (evs : list Event) :
  exec (ProcessAssessmentResult requestId thr sigs) msg st = inr (st', evs) ->
  100 <= thr ->
  let id := currentAssessmentId st in
  let l := applicants (assessment_at st id) in
  evs = [AssessmentCompleted id (Z.of_nat (length l)); RiskLevelRevealed id thr] /\
  (forall who, In who l -> approved_of (assessment_at st' id) who = true) /\
  (forall who, In who l -> checkApprovalStatus st' id who = inr true).
Proof.
  intros H Hthr id l.
  assert (Hall : forall who, In who l ->
                             approved_of (assessment_at st' id) who = true).
  { intros who Hin. rewrite exec_result in H.
    destruct (checkSignatures _ _ _ _) as [f'|]; [|discriminate].
    destruct (_ <? _); [|discriminate]. injection H as <- <-.
    rewrite result_post_at. destruct (decide _) as [_|n]; [|contradiction].
    change (approved_of (set_assessmentCompleted true ?x) who)
      with (approved_of x who).
    apply approved_of_approve_all. right. split; [exact Hin|].
    apply risk_ok_100. exact Hthr. }
  split; [|split; [exact Hall|]].
  - rewrite exec_result in H.
    destruct (checkSignatures _ _ _ _) as [f'|]; [|discriminate].
    destruct (_ <? _); [|discriminate]. injection H as <- <-.
    unfold count_approved. fold id. fold l.
    replace (List.filter (risk_ok id thr) l) with l; [reflexivity|].
    clear - Hthr. induction l as [|x l IH]; [reflexivity|]. cbn.
    rewrite risk_ok_100 by exact Hthr. f_equal. exact IH.
  - intros who Hin. unfold checkApprovalStatus. unfold id at 1.
    rewrite (exec_completed_current _ _ _ _ _ _ _ H).
    rewrite (Hall who Hin). reflexivity.
Qed.

(** X13. In a reachable storage an approval is recorded only in a cycle
    below the current identifier and only for a participant on its list
    with a submitted profile; and for such a cycle [checkApprovalStatus]
    answers [true] exactly for the listed participants whose placeholder
    score is within the final risk level the cycle records. *)
Theorem approvals_characterised (st : State) (id : Z) (who : address) :
  reachable st ->
  (approved_of (assessment_at st id) who = true ->
   1 <= id < currentAssessmentId st /\
   In who (applicants (assessment_at st id)) /\
   hasSubmitted (profile_of (assessment_at st id) who) = true) /\
  (1 <= id < currentAssessmentId st ->
   (checkApprovalStatus st id who = inr true <->
    In who (applicants (assessment_at st id)) /\
    risk_ok id (finalRiskLevel (assessment_at st id)) who = true)).
Proof.
  intros Hreach.
  destruct (reachable_well_formed st Hreach) as (_ & Hpast & Hfresh & Hnone).
  destruct (reachable_coherent st Hreach) as (_ & Hlisted & _ & _ & Happ).
  assert (Hwhere : approved_of (assessment_at st id) who = true ->
                   1 <= id < currentAssessmentId st).
  { intros Hok.
    destruct (Z_lt_le_dec id 1) as [Hlow|Hhigh].
    { rewrite Hfresh in Hok by lia. discriminate Hok. }
    destruct (Z_lt_le_dec id (currentAssessmentId st)) as [Hlt|Hge]; [lia|].
    destruct (Z.eq_dec id (currentAssessmentId st)) as [->|Hne].
    - unfold approved_of in Hok. rewrite Hnone, lookup_empty in Hok.
      discriminate Hok.
    - rewrite Hfresh in Hok by lia. discriminate Hok. }
  split.
  - intros Hok. pose proof (Hwhere Hok) as Hid. split; [exact Hid|].
    apply (Happ id who Hid) in Hok as [Hin _].
    split; [exact Hin|apply Hlisted; exact Hin].
  - intros Hid. unfold checkApprovalStatus. rewrite (Hpast id Hid).
    rewrite <- (Happ id who Hid).
    split; [intros Heq; injection Heq as ->; reflexivity|].
    intros ->. reflexivity.
Qed.

(** X14. Approvals are never taken back: a participant approved in a cycle
    stays approved in it after any sequence of calls. *)
Theorem approvals_never_revoked (st st' : State) (id : Z) (who : address) :
  steps st st' ->
  approved_of (assessment_at st id) who = true ->
  approved_of (assessment_at st' id) who = true.
Proof.
  induction 1 as [st|st st1 st2 c msg evs _ IH Hexec]; intros Hok;
    [exact Hok|].
  specialize (IH Hok). clear Hok. exec_cases Hexec.
  - rewrite start_post_at. destruct (decide _) as [<-|_]; exact IH.
  - destruct (submit_post_at _creditScore _income _employmentYears _debtRatio
                msg st1) as (h1 & h2 & h3 & h4 & Hat).
    rewrite Hat. destruct (decide _) as [<-|_]; exact IH.
  - exact IH.
  - rewrite result_post_at. destruct (decide _) as [<-|_]; [|exact IH].
    change (approved_of (set_assessmentCompleted true ?x) who)
      with (approved_of x who).
    apply approved_of_approve_all. left. exact IH.
  - rewrite pause_post_at. destruct (decide _) as [<-|_]; exact IH.
Qed.

(** *** How the calls compose *)

(** X15. After a callback went through in a reachable storage, the cycle
    it completed reads back from [getAssessmentHistory] as completed with
    the revealed threshold and the block time as end time, and the new
    current cycle is untouched: [getCurrentAssessmentInfo] reports the next
    identifier with no threshold, not completed, start time 0 and no
    participant, and neither window is active at any time. *)
Theorem new_cycle_idle (st st' : State) (requestId thr : Z) (sigs : bytes)
  (msg : Msg) (evs : list Event) :
  reachable st ->
  exec (ProcessAssessmentResult requestId thr sigs) msg st = inr (st', evs) ->
  let id := currentAssessmentId st in
  let a := assessment_at st id in
  getAssessmentHistory st' id =
    (true, thr, startTime a, block_timestamp msg,
     Z.of_nat (length (applicants a))) /\
  getCurrentAssessmentInfo st' = (id + 1, false, false, 0, 0) /\
  (forall t, isAssessmentWindowActive st' t = false /\
             isEvaluationTimeActive st' t = false).
Proof.
  intros Hreach H id a.
  destruct (reachable_well_formed st Hreach) as (_ & _ & Hfresh & _).
  assert (Hnext : assessment_at st' (id + 1) = zero_assessment).
  { rewrite (exec_other_cycles _ _ _ _ _ (id + 1) H) by (unfold id; lia).
    apply Hfresh. unfold id. lia. }
  rewrite exec_result in H.
  destruct (checkSignatures _ _ _ _) as [f'|]; [|discriminate].
  destruct (_ <? _); [|discriminate]. injection H as <- <-.
  pose proof (approve_all_fields id thr (applicants a)
                (set_endTime (block_timestamp msg) (set_finalRiskLevel thr a)))
    as (_ & _ & _ & Hf & Hs & He & Hl & _).
  split; [|split].
  - unfold getAssessmentHistory. rewrite result_post_at.
    destruct (decide _) as [_|n]; [|contradiction]. cbn.
    fold id. fold a. rewrite Hf, Hs, He, Hl. reflexivity.
  - unfold getCurrentAssessmentInfo.
    change (currentAssessmentId (processAssessmentResult_post f' thr msg st))
      with (id + 1).
    rewrite Hnext. reflexivity.
  - intros t. unfold isAssessmentWindowActive, isEvaluationTimeActive.
    change (currentAssessmentId (processAssessmentResult_post f' thr msg st))
      with (id + 1).
    rewrite Hnext. cbn. rewrite andb_false_r. split; reflexivity.
Qed.

(** X16. After [submitRiskProfile] went through in a reachable storage,
    [getApplicantStatus] of the sender reads back submitted, the block time
    and not approved; [getCurrentAssessmentInfo] reports an open cycle with
    one participant more; and the status of everybody else is as before. *)
Theorem submit_then_status (st st' : State) (cs inc ey dr : Z) (msg : Msg)
  (evs : list Event) :
  reachable st ->
  exec (SubmitRiskProfile cs inc ey dr) msg st = inr (st', evs) ->
  let a := assessment_at st (currentAssessmentId st) in
  getApplicantStatus st' (msg_sender msg) = (true, block_timestamp msg, false) /\
  getCurrentAssessmentInfo st' =
    (currentAssessmentId st, true, false, startTime a,
     Z.of_nat (length (applicants a)) + 1) /\
  (forall who, who <> msg_sender msg ->
               getApplicantStatus st' who = getApplicantStatus st who).
Proof.
  intros Hreach H a.
  destruct (reachable_well_formed st Hreach) as (_ & _ & _ & Hnone).
  rewrite exec_submit in H.
  destruct (isAssessmentWindowActive st (block_timestamp msg)) eqn:Hwin;
    [|discriminate].
  repeat match type of H with
         | (if ?b then _ else _) = _ => destruct b eqn:?
         end; try discriminate H.
  injection H as <- <-.
  assert (Hopen : thresholdSet a = true /\ assessmentCompleted a = false).
  { unfold isAssessmentWindowActive in Hwin. fold a in Hwin.
    destruct (thresholdSet a); [|discriminate].
    destruct (assessmentCompleted a); [discriminate|]. split; reflexivity. }
  destruct Hopen as [Hset Hdone].
  destruct (submit_post_at cs inc ey dr msg st) as (h1 & h2 & h3 & h4 & Hat).
  unfold getApplicantStatus, getCurrentAssessmentInfo.
  rewrite submit_post_cur, Hat.
  destruct (decide _) as [_|n]; [|contradiction]. fold a.
  unfold profile_of, approved_of, set_applicants, set_profile;
    cbn [profiles approvedApplicants thresholdSet assessmentCompleted
         startTime applicants].
  rewrite Hset, Hdone. fold a in Hnone. rewrite Hnone, lookup_empty.
  split; [|split].
  - rewrite lookup_insert_eq. reflexivity.
  - rewrite length_app, Nat2Z.inj_add. reflexivity.
  - intros who Hne. rewrite lookup_insert_ne by congruence. reflexivity.
Qed.

(** X17. At the last [uint32] identifier the increment of the callback
    overflows: every [processAssessmentResult] reverts, with the revert of
    the signature check or with the arithmetic panic, and writes nothing;
    the cycle with that identifier can be completed by pause only. *)
Theorem last_identifier_overflow (st : State) (requestId thr : Z)
  (sigs : bytes) (msg : Msg) :
  currentAssessmentId st = UINT32_MAX ->
  (exists r,
     exec (ProcessAssessmentResult requestId thr sigs) msg st = inl r /\
     (r = FHE_revert \/ r = Panic_overflow)) /\
  storage_after (ProcessAssessmentResult requestId thr sigs) msg st = st /\
  (forall f', checkSignatures requestId thr sigs (fhe st) = Some f' ->
              exec (ProcessAssessmentResult requestId thr sigs) msg st =
                inl Panic_overflow).
Proof.
  intros Hmax. unfold storage_after. rewrite exec_result, Hmax.
  rewrite Z.ltb_irrefl.
  destruct (checkSignatures _ _ _ _) as [f'|].
  - split; [eauto|]. split; [reflexivity|]. intros _ _. reflexivity.
  - split; [eauto|]. split; [reflexivity|]. intros f' Hf. discriminate Hf.
Qed.

(** X18. The callback does not require a started cycle.  In a reachable
    storage whose current cycle has no threshold set, a callback the
    signature check accepts goes through: the list being empty, it reports
    0 approved participants, marks the never-started cycle completed and
    advances the identifier. *)
Theorem callback_on_unstarted_cycle (st : State) (requestId thr : Z)
  (sigs : bytes) (msg : Msg) (f' : fhe_state) :
  reachable st ->
  thresholdSet (assessment_at st (currentAssessmentId st)) = false ->
  checkSignatures requestId thr sigs (fhe st) = Some f' ->
  currentAssessmentId st < UINT32_MAX ->
  exists st',
    exec (ProcessAssessmentResult requestId thr sigs) msg st =
      inr (st', [AssessmentCompleted (currentAssessmentId st) 0;
                 RiskLevelRevealed (currentAssessmentId st) thr]) /\
    currentAssessmentId st' = currentAssessmentId st + 1 /\
    assessmentCompleted (assessment_at st' (currentAssessmentId st)) = true /\
    thresholdSet (assessment_at st' (currentAssessmentId st)) = false /\
    finalRiskLevel (assessment_at st' (currentAssessmentId st)) = thr.
Proof.
  intros Hreach Hunset Hsig Hmax.
  destruct (reachable_coherent st Hreach) as (_ & _ & _ & Hempty & _).
  pose proof (Hempty _ Hunset) as Hnil.
  exists (processAssessmentResult_post f' thr msg st).
  split.
  { rewrite exec_result, Hsig.
    destruct (currentAssessmentId st <? UINT32_MAX) eqn:Hlt;
      [|apply Z.ltb_ge in Hlt; lia].
    rewrite Hnil. reflexivity. }
  split; [reflexivity|].
  rewrite result_post_at. destruct (decide _) as [_|n]; [|contradiction].
  rewrite Hnil. cbn. rewrite Hunset. repeat split.
Qed.

(** X19. Once [pauseCurrentAssessment] went through, the cycle stays
    closed until it is started again: at any time every submission reverts
    with "Assessment window not active" and every evaluation request with
    "Not evaluation time", while [startNewAssessment] by the owner during
    business hours goes through. *)
Theorem pause_blocks (st st' : State) (msg msg' : Msg) (evs : list Event) :
  exec PauseCurrentAssessment msg st = inr (st', evs) ->
  (forall cs inc ey dr,
     exec (SubmitRiskProfile cs inc ey dr) msg' st' =
       inl (Require_failed "Assessment window not active")) /\
  exec ProcessRiskAssessment msg' st' =
    inl (Require_failed "Not evaluation time") /\
  (msg_sender msg' = owner st ->
   isBusinessHours (block_timestamp msg') = true ->
   succeeds StartNewAssessment msg' st' = true).
Proof.
  intros H. rewrite exec_pause in H.
  destruct (negb _); [discriminate|]. injection H as <- <-.
  assert (Hdone : assessmentCompleted
                    (assessment_at (pauseCurrentAssessment_post msg st)
                       (currentAssessmentId
                          (pauseCurrentAssessment_post msg st))) = true).
  { change (currentAssessmentId (pauseCurrentAssessment_post msg st))
      with (currentAssessmentId st).
    rewrite pause_post_at. destruct (decide _) as [_|n]; [|contradiction].
    reflexivity. }
  split; [|split].
  - intros cs inc ey dr. rewrite exec_submit.
    unfold isAssessmentWindowActive. rewrite Hdone.
    destruct (thresholdSet _); reflexivity.
  - rewrite exec_process. unfold isEvaluationTimeActive. rewrite Hdone.
    cbn. rewrite andb_false_r. reflexivity.
  - intros Ho Hbh. unfold succeeds. rewrite exec_start.
    change (owner (pauseCurrentAssessment_post msg st)) with (owner st).
    apply Z.eqb_eq in Ho. rewrite Ho, Hbh, Hdone. cbn.
    rewrite orb_true_r. reflexivity.
Qed.

(** X20. Once [startNewAssessment] went through, the cycle is open: at
    any time exactly the submission window (during business hours) or the
    evaluation window (outside them) is active, a second start reverts
    whoever calls it, and during business hours every sender who had no
    profile under that identifier can submit values within the bounds. *)
Theorem started_cycle_open (st st' : State) (msg : Msg) (evs : list Event) :
  exec StartNewAssessment msg st = inr (st', evs) ->
  (forall t, isAssessmentWindowActive st' t = isBusinessHours t /\
             isEvaluationTimeActive st' t = negb (isBusinessHours t)) /\
  (forall msg', exists r, exec StartNewAssessment msg' st' = inl r) /\
  (forall msg' cs inc ey dr,
     isBusinessHours (block_timestamp msg') = true ->
     cs <= 850 -> ey <= 50 -> dr <= 100 ->
     hasSubmitted (profile_of (assessment_at st (currentAssessmentId st))
                     (msg_sender msg')) = false ->
     succeeds (SubmitRiskProfile cs inc ey dr) msg' st' = true).
Proof.
  intros H. rewrite exec_start in H.
  repeat match type of H with
         | (if ?b then _ else _) = _ => destruct b eqn:?
         end; try discriminate H.
  injection H as <- <-.
  set (st' := startNewAssessment_post msg st).
  assert (Hcur : currentAssessmentId st' = currentAssessmentId st)
    by apply start_post_cur.
  assert (Hat : assessment_at st' (currentAssessmentId st') =
                set_applicants []
                  (set_startTime (block_timestamp msg)
                     (set_assessmentCompleted false
                        (set_thresholdSet true
                           (set_riskThreshold (fst (randEuint8 (fhe st)))
                              (assessment_at st (currentAssessmentId st))))))).
  { rewrite Hcur. unfold st'. rewrite start_post_at.
    destruct (decide _) as [_|n]; [reflexivity|contradiction]. }
  assert (Hwin : forall t, isAssessmentWindowActive st' t = isBusinessHours t).
  { intros t. unfold isAssessmentWindowActive. rewrite Hat. reflexivity. }
  split; [|split].
  - intros t. split; [apply Hwin|].
    unfold isEvaluationTimeActive. rewrite Hat. cbn.
    rewrite !andb_true_r. reflexivity.
  - intros msg'. rewrite exec_start, Hat. cbn.
    repeat match goal with |- context [if ?b then _ else _] => destruct b end;
      eauto.
  - intros msg' cs inc ey dr Hbh Hcs Hey Hdr Hnew.
    unfold succeeds. rewrite exec_submit, Hwin, Hbh, Hat. cbn [negb].
    destruct (cs <=? 850) eqn:Hcs'; [|lia].
    destruct (ey <=? 50) eqn:Hey'; [|lia].
    destruct (dr <=? 100) eqn:Hdr'; [|lia].
    cbn [negb]. unfold profile_of in *.
    cbn [profiles set_applicants set_startTime set_assessmentCompleted
         set_thresholdSet set_riskThreshold].
    rewrite Hnew. reflexivity.
Qed.

End Verification.

(** ** The properties on the reference environment *)

Import Mock.

Lemma reachable_deployed : reachable deployed.
Proof. exists (at_hour deployer 0 8). apply steps_refl. Qed.

Lemma reachable_submitted : reachable submitted.
Proof.
  apply (reachable_all_succeed to_submitted (at_hour deployer 0 8)).
  vm_compute. reflexivity.
Qed.

Lemma reachable_revealed : reachable revealed.
Proof.
  apply (reachable_all_succeed to_revealed (at_hour deployer 0 8)).
  vm_compute. reflexivity.
Qed.

(** C1 fails as stated: after the calls of [to_revealed], where the callback
    for request 0 went through and made 2 the current identifier, the same
    request identifier is delivered again, once with the same payload and
    once with another one.  Both calls go through instead of reverting: they
    complete cycle 2, which was never started, and make 3 the current
    identifier. *)
Lemma replayed_callback_accepted :
  all_succeed to_revealed deployed = true /\
  currentAssessmentId revealed = 2 /\
  match exec (ProcessAssessmentResult 0 50 (mock_proof 0 50))
          (at_hour oracle 0 22) revealed with
  | inr (st', evs) =>
      currentAssessmentId st' = 3 /\
      evs = [AssessmentCompleted 2 0; RiskLevelRevealed 2 50] /\
      assessmentCompleted (assessment_at st' 2) = true
  | inl _ => False
  end /\
  match exec (ProcessAssessmentResult 0 60 (mock_proof 0 60))
          (at_hour oracle 0 22) revealed with
  | inr (st', evs) =>
      currentAssessmentId st' = 3 /\
      finalRiskLevel (assessment_at st' 2) = 60
  | inl _ => False
  end.
Proof. vm_compute. repeat split. Qed.

(** C2 fails as stated: cycle 1, completed by pause with one participant,
    is written again by [startNewAssessment] the next morning: the completed
    flag is cleared, the start time overwritten and the participant list
    emptied. *)
Lemma paused_cycle_reopened :
  all_succeed to_paused deployed = true /\
  assessmentCompleted (assessment_at paused 1) = true /\
  applicants (assessment_at paused 1) = [alice] /\
  startTime (assessment_at paused 1) = 36000 /\
  match exec StartNewAssessment (at_hour deployer 1 10) paused with
  | inr (st', _) =>
      assessmentCompleted (assessment_at st' 1) = false /\
      applicants (assessment_at st' 1) = [] /\
      startTime (assessment_at st' 1) = 122400
  | inl _ => False
  end.
Proof. vm_compute. repeat split. Qed.

(** C3 fails as stated.  Right after deployment the current identifier 1
    refers to a cycle that is neither active nor completed, and so does the
    current identifier 2 after the callback completed cycle 1; and after a
    pause completed cycle 1, [startNewAssessment] begins the new cycle under
    identifier 1 again, not under a greater one. *)
Lemma restart_under_completed_identifier :
  currentAssessmentId deployed = 1 /\
  active deployed 1 = false /\
  assessmentCompleted (assessment_at deployed 1) = false /\
  all_succeed to_revealed deployed = true /\
  currentAssessmentId revealed = 2 /\
  assessmentCompleted (assessment_at revealed 1) = true /\
  active revealed 2 = false /\
  assessmentCompleted (assessment_at revealed 2) = false /\
  all_succeed to_paused deployed = true /\
  assessmentCompleted (assessment_at paused 1) = true /\
  match exec StartNewAssessment (at_hour deployer 1 10) paused with
  | inr (st', evs) =>
      currentAssessmentId st' = 1 /\
      evs = [AssessmentStarted 1 122400] /\
      active st' 1 = true
  | inl _ => False
  end.
Proof. vm_compute. repeat split. Qed.

(** The callback has no guard on the completed flag
    ([processRiskAssessment] has one): a callback that arrives after the
    owner paused the cycle is evaluated all the same. *)
Lemma late_callback_after_pause :
  all_succeed to_paused_pending deployed = true /\
  assessmentCompleted (assessment_at paused_pending 1) = true /\
  finalRiskLevel (assessment_at paused_pending 1) = 0 /\
  approved_of (assessment_at paused_pending 1) alice = false /\
  match exec first_callback (at_hour oracle 0 21) paused_pending with
  | inr (st', evs) =>
      currentAssessmentId st' = 2 /\
      evs = [AssessmentCompleted 1 1; RiskLevelRevealed 1 50] /\
      finalRiskLevel (assessment_at st' 1) = 50 /\
      approved_of (assessment_at st' 1) alice = true
  | inl _ => False
  end.
Proof. vm_compute. repeat split. Qed.

(** *** The theorems at concrete inputs *)

Lemma window_gating_witness :
  thresholdSet (assessment_at started (currentAssessmentId started)) = true /\
  assessmentCompleted (assessment_at started (currentAssessmentId started))
    = false /\
  xorb (isBusinessHours 72000) (isEvaluationTimeActive started 72000) = true.
Proof.
  assert (H1 : thresholdSet (assessment_at started (currentAssessmentId started))
               = true) by (vm_compute; reflexivity).
  assert (H2 : assessmentCompleted
                 (assessment_at started (currentAssessmentId started)) = false)
    by (vm_compute; reflexivity).
  split; [exact H1|]. split; [exact H2|].
  exact (proj1 (proj2 (proj2 (proj2 (window_gating 72000))) started H1 H2)).
Defined.

Lemma startNewAssessment_exclusive_witness :
  thresholdSet (assessment_at started (currentAssessmentId started)) = true /\
  assessmentCompleted (assessment_at started (currentAssessmentId started))
    = false /\
  msg_sender (at_hour deployer 0 11) = owner started /\
  isBusinessHours (block_timestamp (at_hour deployer 0 11)) = true /\
  exec StartNewAssessment (at_hour deployer 0 11) started =
    inl (Require_failed "Assessment already active") /\
  storage_after StartNewAssessment (at_hour deployer 0 11) started = started.
Proof.
  assert (H1 : thresholdSet (assessment_at started (currentAssessmentId started))
               = true) by (vm_compute; reflexivity).
  assert (H2 : assessmentCompleted
                 (assessment_at started (currentAssessmentId started)) = false)
    by (vm_compute; reflexivity).
  assert (Ho : msg_sender (at_hour deployer 0 11) = owner started)
    by (vm_compute; reflexivity).
  assert (Hb : isBusinessHours (block_timestamp (at_hour deployer 0 11)) = true)
    by (vm_compute; reflexivity).
  destruct (startNewAssessment_exclusive started (at_hour deployer 0 11) H1 H2)
    as (_ & Hsame & Herr).
  destruct (Herr Ho Hb) as [He _].
  repeat split; assumption.
Defined.

Lemma submitRiskProfile_ranges_witness :
  isAssessmentWindowActive started (block_timestamp (at_hour alice 0 11))
    = true /\
  (exists r, exec (SubmitRiskProfile 851 100000 10 20) (at_hour alice 0 11)
               started = inl r /\
             error_kind r = Some RangeError) /\
  (exists r, exec (SubmitRiskProfile 800 100000 51 20) (at_hour alice 0 11)
               started = inl r /\
             error_kind r = Some RangeError) /\
  (exists r, exec (SubmitRiskProfile 800 100000 10 101) (at_hour alice 0 11)
               started = inl r /\
             error_kind r = Some RangeError) /\
  (exists st', exec (SubmitRiskProfile 850 4294967295 50 100)
                 (at_hour alice 0 11) started =
               inr (st', [ProfileSubmitted (msg_sender (at_hour alice 0 11))
                            (currentAssessmentId started)])).
Proof.
  assert (Hwin : isAssessmentWindowActive started
                   (block_timestamp (at_hour alice 0 11)) = true)
    by (vm_compute; reflexivity).
  assert (Hnew : hasSubmitted
                   (profile_of
                      (assessment_at started (currentAssessmentId started))
                      (msg_sender (at_hour alice 0 11))) = false)
    by (vm_compute; reflexivity).
  destruct (submitRiskProfile_ranges started (at_hour alice 0 11) Hwin)
    as [Hbad Hgood].
  split; [exact Hwin|].
  split.
  { destruct (Hbad 851 100000 10 20) as (r & Hr & Hk & _); [lia|].
    exists r. split; assumption. }
  split.
  { destruct (Hbad 800 100000 51 20) as (r & Hr & Hk & _); [lia|].
    exists r. split; assumption. }
  split.
  { destruct (Hbad 800 100000 10 101) as (r & Hr & Hk & _); [lia|].
    exists r. split; assumption. }
  destruct (Hgood 4294967295) as (st' & Hexec & _); [lia | exact Hnew |].
  exists st'. exact Hexec.
Defined.

Lemma processAssessmentResult_completes_witness :
  checkSignatures 0 50 (mock_proof 0 50) (fhe requested) = Some (fhe requested) /\
  currentAssessmentId requested < UINT32_MAX /\
  exists st',
    succeeds first_callback (at_hour oracle 0 21) requested = true /\
    currentAssessmentId st' = currentAssessmentId requested + 1 /\
    finalRiskLevel (assessment_at st' (currentAssessmentId requested)) = 50 /\
    endTime (assessment_at st' (currentAssessmentId requested)) =
      block_timestamp (at_hour oracle 0 21) /\
    assessmentCompleted (assessment_at st' (currentAssessmentId requested))
      = true.
Proof.
  assert (Hsig : checkSignatures 0 50 (mock_proof 0 50) (fhe requested)
                 = Some (fhe requested)) by (vm_compute; reflexivity).
  assert (Hmax : currentAssessmentId requested < UINT32_MAX)
    by (vm_compute; reflexivity).
  split; [exact Hsig|]. split; [exact Hmax|].
  destruct (processAssessmentResult_completes requested 0 50 (mock_proof 0 50)
              (at_hour oracle 0 21) (fhe requested) Hsig Hmax)
    as (st' & Hexec & Hcur & _ & Hlevel & Hend & Hdone & _).
  exists st'. split.
  { unfold succeeds, first_callback. rewrite Hexec. reflexivity. }
  repeat split; assumption.
Defined.

Lemma submitRiskProfile_once_witness :
  exec first_submission (at_hour alice 0 11) started =
    inr (storage_after first_submission (at_hour alice 0 11) started,
         emitted first_submission (at_hour alice 0 11) started) /\
  exec (SubmitRiskProfile 700 50000 5 30) (at_hour alice 0 12)
    (storage_after first_submission (at_hour alice 0 11) started) =
    inl (Require_failed "Profile already submitted").
Proof.
  assert (Hexec : exec first_submission (at_hour alice 0 11) started =
                  inr (storage_after first_submission (at_hour alice 0 11)
                         started,
                       emitted first_submission (at_hour alice 0 11) started)).
  { apply exec_goes. vm_compute. reflexivity. }
  split; [exact Hexec|].
  destruct (submitRiskProfile_once started _ _ 800 100000 10 20
              (at_hour alice 0 11) _ Hexec (steps_refl _))
    as (_ & _ & _ & _ & Hagain).
  assert (Hcur : currentAssessmentId
                   (storage_after first_submission (at_hour alice 0 11) started)
                 = currentAssessmentId started) by (vm_compute; reflexivity).
  destruct (Hagain Hcur 700 50000 5 30 (at_hour alice 0 12) eq_refl)
    as (_ & _ & Hdup).
  apply Hdup; [vm_compute; reflexivity | lia | lia | lia].
Defined.

Lemma restart_keeps_profiles_witness :
  hasSubmitted
    (profile_of (assessment_at submitted (currentAssessmentId submitted)) alice)
    = true /\
  exists st1 st2 evs,
    exec PauseCurrentAssessment (at_hour deployer 0 12) submitted =
      inr (st1, []) /\
    exec StartNewAssessment (at_hour deployer 1 10) st1 = inr (st2, evs) /\
    applicants (assessment_at st2 (currentAssessmentId st2)) = [] /\
    exec (SubmitRiskProfile 800 100000 10 20) (at_hour alice 1 11) st2 =
      inl (Require_failed "Profile already submitted").
Proof.
  assert (Hsub : hasSubmitted
                   (profile_of
                      (assessment_at submitted (currentAssessmentId submitted))
                      alice) = true) by (vm_compute; reflexivity).
  assert (Ho : msg_sender (at_hour deployer 0 12) = owner submitted)
    by (vm_compute; reflexivity).
  assert (Ho' : msg_sender (at_hour deployer 1 10) = owner submitted)
    by (vm_compute; reflexivity).
  assert (Hb : isBusinessHours (block_timestamp (at_hour deployer 1 10)) = true)
    by (vm_compute; reflexivity).
  split; [exact Hsub|].
  destruct (restart_keeps_profiles submitted alice (at_hour deployer 0 12)
              (at_hour deployer 1 10) Hsub Ho Ho' Hb)
    as (st1 & st2 & evs & Hp & Hs & _ & Hnil & _ & _ & Hdup).
  exists st1, st2, evs.
  split; [exact Hp|]. split; [exact Hs|]. split; [exact Hnil|].
  apply (Hdup 800 100000 10 20 (at_hour alice 1 11));
    [reflexivity | vm_compute; reflexivity | lia | lia | lia].
Defined.

Lemma pauseCurrentAssessment_total_witness :
  msg_sender (at_hour deployer 0 8) = owner deployed /\
  thresholdSet (assessment_at deployed (currentAssessmentId deployed)) = false /\
  exists st',
    exec PauseCurrentAssessment (at_hour deployer 0 8) deployed = inr (st', []) /\
    assessmentCompleted (assessment_at st' (currentAssessmentId deployed))
      = true /\
    checkApprovalStatus st' (currentAssessmentId deployed) alice = inr false.
Proof.
  assert (Ho : msg_sender (at_hour deployer 0 8) = owner deployed)
    by (vm_compute; reflexivity).
  split; [exact Ho|]. split; [vm_compute; reflexivity|].
  destruct (pauseCurrentAssessment_total deployed (at_hour deployer 0 8) Ho)
    as (st' & Hexec & _ & Hat & _ & _ & _ & Hfalse).
  exists st'. split; [exact Hexec|]. split.
  { rewrite Hat. reflexivity. }
  exact (Hfalse reachable_deployed alice).
Defined.

Lemma processAssessmentResult_replay_witness :
  exec first_callback (at_hour oracle 0 21) requested =
    inr (storage_after first_callback (at_hour oracle 0 21) requested,
         emitted first_callback (at_hour oracle 0 21) requested) /\
  checkSignatures 0 60 (mock_proof 0 60)
    (fhe (storage_after first_callback (at_hour oracle 0 21) requested)) =
    Some (fhe (storage_after first_callback (at_hour oracle 0 21) requested)) /\
  currentAssessmentId
    (storage_after first_callback (at_hour oracle 0 21) requested)
    < UINT32_MAX /\
  exists st2 evs2,
    exec (ProcessAssessmentResult 0 60 (mock_proof 0 60)) (at_hour oracle 0 22)
      (storage_after first_callback (at_hour oracle 0 21) requested) =
      inr (st2, evs2) /\
    currentAssessmentId st2 = currentAssessmentId requested + 2 /\
    finalRiskLevel (assessment_at st2 (currentAssessmentId requested + 1)) = 60.
Proof.
  assert (H1 : exec first_callback (at_hour oracle 0 21) requested =
               inr (storage_after first_callback (at_hour oracle 0 21) requested,
                    emitted first_callback (at_hour oracle 0 21) requested)).
  { apply exec_goes. vm_compute. reflexivity. }
  assert (Hsig : checkSignatures 0 60 (mock_proof 0 60)
                   (fhe (storage_after first_callback (at_hour oracle 0 21)
                           requested)) =
                 Some (fhe (storage_after first_callback (at_hour oracle 0 21)
                              requested))) by (vm_compute; reflexivity).
  assert (Hmax : currentAssessmentId
                   (storage_after first_callback (at_hour oracle 0 21) requested)
                 < UINT32_MAX) by (vm_compute; reflexivity).
  split; [exact H1|]. split; [exact Hsig|]. split; [exact Hmax|].
  destruct (proj2 (proj2 (processAssessmentResult_replay requested 0 50
                            (mock_proof 0 50) (at_hour oracle 0 21)))
              _ _ 60 (mock_proof 0 60) (at_hour oracle 0 22) _ H1 Hsig Hmax)
    as (st2 & evs2 & Hexec & Hcur & _ & Hlevel).
  exists st2, evs2. repeat split; assumption.
Defined.

Lemma completed_cycles_record_witness :
  reachable revealed /\
  1 <= 1 < currentAssessmentId revealed /\
  assessmentCompleted (assessment_at revealed 1) = true /\
  forall st', steps revealed st' ->
              assessment_at st' 1 = assessment_at revealed 1.
Proof.
  split; [exact reachable_revealed|].
  assert (Hid : 1 <= 1 < currentAssessmentId revealed)
    by (vm_compute; split; [discriminate | reflexivity]).
  split; [exact Hid|].
  exact (proj1 (completed_cycles_record revealed reachable_revealed) 1 Hid).
Defined.

Lemma cycle_identifiers_witness :
  reachable submitted /\
  active submitted 1 = true /\
  1 = currentAssessmentId submitted.
Proof.
  split; [exact reachable_submitted|].
  assert (Hact : active submitted 1 = true) by (vm_compute; reflexivity).
  split; [exact Hact|].
  exact (proj1 (proj2 (cycle_identifiers submitted reachable_submitted)) 1 Hact).
Defined.

(** *** The further properties at concrete inputs *)

Lemma reachable_started : reachable started.
Proof.
  apply (reachable_all_succeed to_started (at_hour deployer 0 8)).
  vm_compute. reflexivity.
Qed.

Lemma reachable_requested : reachable requested.
Proof.
  apply (reachable_all_succeed to_requested (at_hour deployer 0 8)).
  vm_compute. reflexivity.
Qed.

Lemma time_of_day_witness :
  0 <= 10 < 24 /\ 0 <= 30 < 3600 /\
  getCurrentHour (19000 * 86400 + 10 * 3600 + 30) = 10 /\
  isBusinessHours (19000 * 86400 + 10 * 3600 + 30) = isBusinessHours (10 * 3600).
Proof.
  assert (Hh : 0 <= 10 < 24) by lia.
  assert (Hs : 0 <= 30 < 3600) by lia.
  split; [exact Hh|]. split; [exact Hs|].
  destruct (time_of_day 19000 10 30 Hh Hs) as (Hhour & _ & Hday).
  split; [exact Hhour|exact Hday].
Defined.

Lemma only_owner_witness :
  msg_sender (at_hour alice 0 11) <> owner started /\
  exec StartNewAssessment (at_hour alice 0 11) started =
    inl (Require_failed "Not authorized") /\
  exec PauseCurrentAssessment (at_hour alice 0 11) started =
    inl (Require_failed "Not authorized").
Proof.
  assert (Hne : msg_sender (at_hour alice 0 11) <> owner started).
  { intros Heq. vm_compute in Heq. discriminate Heq. }
  split; [exact Hne|].
  destruct (only_owner started (at_hour alice 0 11) Hne) as (Hs & Hp & _).
  split; [exact Hs|exact Hp].
Defined.

Lemma deployment_constants_witness :
  steps deployed submitted /\
  owner submitted = owner deployed /\
  lastAssessmentTime submitted = lastAssessmentTime deployed.
Proof.
  assert (Hsteps : steps deployed submitted).
  { apply (all_succeed_steps to_submitted deployed). vm_compute. reflexivity. }
  split; [exact Hsteps|].
  exact (deployment_constants deployed submitted Hsteps).
Defined.

Lemma evaluation_open_to_any_caller_witness :
  block_timestamp (at_hour deployer 0 20) = block_timestamp (at_hour alice 0 20) /\
  exec ProcessRiskAssessment (at_hour deployer 0 20) submitted =
  exec ProcessRiskAssessment (at_hour alice 0 20) submitted.
Proof.
  split; [reflexivity|].
  exact (proj1 (evaluation_open_to_any_caller submitted (at_hour deployer 0 20)
                  (at_hour alice 0 20) 0 50 (mock_proof 0 50) eq_refl)).
Defined.

Lemma processRiskAssessment_guards_witness :
  isEvaluationTimeActive deployed (block_timestamp (at_hour deployer 0 20))
    = false /\
  exec ProcessRiskAssessment (at_hour deployer 0 20) deployed =
    inl (Require_failed "Not evaluation time").
Proof.
  assert (Hev : isEvaluationTimeActive deployed
                  (block_timestamp (at_hour deployer 0 20)) = false)
    by (vm_compute; reflexivity).
  split; [exact Hev|].
  exact (proj1 (proj1 (processRiskAssessment_guards deployed
                         (at_hour deployer 0 20)) Hev)).
Defined.

Lemma processRiskAssessment_effect_witness :
  succeeds ProcessRiskAssessment (at_hour deployer 0 20) submitted = true /\
  isEvaluationTimeActive submitted (block_timestamp (at_hour deployer 0 20))
    = true.
Proof.
  assert (Hgo : succeeds ProcessRiskAssessment (at_hour deployer 0 20) submitted
                = true) by (vm_compute; reflexivity).
  split; [exact Hgo|].
  exact (proj1 (proj1 (proj1 (processRiskAssessment_effect submitted
                                (at_hour deployer 0 20))) Hgo)).
Defined.

Lemma submit_outside_window_witness :
  isBusinessHours (block_timestamp (at_hour alice 0 20)) = false /\
  exec (SubmitRiskProfile 750 75000 5 30) (at_hour alice 0 20) started =
    inl (Require_failed "Assessment window not active") /\
  storage_after (SubmitRiskProfile 750 75000 5 30) (at_hour alice 0 20) started
    = started.
Proof.
  assert (Hout : isBusinessHours (block_timestamp (at_hour alice 0 20)) = false)
    by (vm_compute; reflexivity).
  split; [exact Hout|].
  destruct (submit_outside_window started (at_hour alice 0 20) 750 75000 5 30
              (or_intror (or_intror Hout))) as (_ & Hexec & _ & Hsame).
  split; [exact Hexec|exact Hsame].
Defined.

Lemma startNewAssessment_goes_witness :
  msg_sender (at_hour deployer 0 10) = owner deployed /\
  isBusinessHours (block_timestamp (at_hour deployer 0 10)) = true /\
  thresholdSet (assessment_at deployed (currentAssessmentId deployed)) = false /\
  succeeds StartNewAssessment (at_hour deployer 0 10) deployed = true.
Proof.
  assert (Ho : msg_sender (at_hour deployer 0 10) = owner deployed)
    by (vm_compute; reflexivity).
  assert (Hb : isBusinessHours (block_timestamp (at_hour deployer 0 10)) = true)
    by (vm_compute; reflexivity).
  assert (Hu : thresholdSet (assessment_at deployed (currentAssessmentId deployed))
               = false) by (vm_compute; reflexivity).
  split; [exact Ho|]. split; [exact Hb|]. split; [exact Hu|].
  exact (proj2 (proj1 (startNewAssessment_goes deployed (at_hour deployer 0 10)))
           (conj Ho (conj Hb (or_introl Hu)))).
Defined.

Lemma submitRiskProfile_goes_witness :
  isAssessmentWindowActive started (block_timestamp (at_hour alice 0 11))
    = true /\
  hasSubmitted (profile_of (assessment_at started (currentAssessmentId started))
                  (msg_sender (at_hour alice 0 11))) = false /\
  succeeds (SubmitRiskProfile 800 100000 10 20) (at_hour alice 0 11) started
    = true.
Proof.
  assert (Hwin : isAssessmentWindowActive started
                   (block_timestamp (at_hour alice 0 11)) = true)
    by (vm_compute; reflexivity).
  assert (Hnew : hasSubmitted
                   (profile_of
                      (assessment_at started (currentAssessmentId started))
                      (msg_sender (at_hour alice 0 11))) = false)
    by (vm_compute; reflexivity).
  split; [exact Hwin|]. split; [exact Hnew|].
  apply (proj1 (submitRiskProfile_goes started (at_hour alice 0 11)
                  800 100000 10 20)).
  split; [exact Hwin|]. split; [lia|]. split; [lia|]. split; [lia|exact Hnew].
Defined.

Lemma applicants_coherent_witness :
  reachable submitted /\
  List.NoDup (applicants (assessment_at submitted 1)) /\
  (In alice (applicants (assessment_at submitted 1)) ->
   hasSubmitted (profile_of (assessment_at submitted 1) alice) = true).
Proof.
  split; [exact reachable_submitted|].
  destruct (applicants_coherent submitted 1 reachable_submitted)
    as (Hnd & Hlisted & _).
  split; [exact Hnd|]. intros Hin. exact (proj1 (Hlisted alice Hin)).
Defined.

Lemma approvedCount_bounds_witness :
  exec first_callback (at_hour oracle 0 21) requested =
    inr (storage_after first_callback (at_hour oracle 0 21) requested,
         emitted first_callback (at_hour oracle 0 21) requested) /\
  exists n,
    emitted first_callback (at_hour oracle 0 21) requested =
      [AssessmentCompleted (currentAssessmentId requested) n;
       RiskLevelRevealed (currentAssessmentId requested) 50] /\
    0 <= n <=
      Z.of_nat (length (applicants
                          (assessment_at requested
                             (currentAssessmentId requested)))).
Proof.
  assert (H : exec first_callback (at_hour oracle 0 21) requested =
              inr (storage_after first_callback (at_hour oracle 0 21) requested,
                   emitted first_callback (at_hour oracle 0 21) requested)).
  { apply exec_goes. vm_compute. reflexivity. }
  split; [exact H|].
  destruct (approvedCount_bounds requested _ 0 50 (mock_proof 0 50)
              (at_hour oracle 0 21) _ H) as (n & Hevs & Hn & _).
  exists n. split; [exact Hevs|exact Hn].
Defined.

Lemma threshold_100_approves_all_witness :
  exec (ProcessAssessmentResult 0 100 (mock_proof 0 100)) (at_hour oracle 0 21)
    requested =
    inr (storage_after (ProcessAssessmentResult 0 100 (mock_proof 0 100))
           (at_hour oracle 0 21) requested,
         emitted (ProcessAssessmentResult 0 100 (mock_proof 0 100))
           (at_hour oracle 0 21) requested) /\
  100 <= 100 /\
  (In alice (applicants (assessment_at requested (currentAssessmentId requested)))
   -> checkApprovalStatus
        (storage_after (ProcessAssessmentResult 0 100 (mock_proof 0 100))
           (at_hour oracle 0 21) requested)
        (currentAssessmentId requested) alice = inr true).
Proof.
  assert (H : exec (ProcessAssessmentResult 0 100 (mock_proof 0 100))
                (at_hour oracle 0 21) requested =
              inr (storage_after (ProcessAssessmentResult 0 100 (mock_proof 0 100))
                     (at_hour oracle 0 21) requested,
                   emitted (ProcessAssessmentResult 0 100 (mock_proof 0 100))
                     (at_hour oracle 0 21) requested)).
  { apply exec_goes. vm_compute. reflexivity. }
  assert (Hthr : 100 <= 100) by lia.
  split; [exact H|]. split; [exact Hthr|].
  destruct (threshold_100_approves_all requested _ 0 100 (mock_proof 0 100)
              (at_hour oracle 0 21) _ H Hthr) as (_ & _ & Hall).
  exact (Hall alice).
Defined.

Lemma approvals_characterised_witness :
  reachable revealed /\
  1 <= 1 < currentAssessmentId revealed /\
  (checkApprovalStatus revealed 1 alice = inr true <->
   In alice (applicants (assessment_at revealed 1)) /\
   risk_ok 1 (finalRiskLevel (assessment_at revealed 1)) alice = true).
Proof.
  split; [exact reachable_revealed|].
  assert (Hid : 1 <= 1 < currentAssessmentId revealed)
    by (vm_compute; split; [discriminate | reflexivity]).
  split; [exact Hid|].
  exact (proj2 (approvals_characterised revealed 1 alice reachable_revealed) Hid).
Defined.

Lemma approvals_never_revoked_witness :
  steps revealed
    (storage_after StartNewAssessment (at_hour deployer 1 10) revealed) /\
  approved_of (assessment_at revealed 1) alice = true /\
  approved_of
    (assessment_at
       (storage_after StartNewAssessment (at_hour deployer 1 10) revealed) 1)
    alice = true.
Proof.
  assert (Hsteps : steps revealed
                     (storage_after StartNewAssessment (at_hour deployer 1 10)
                        revealed)).
  { apply (steps_call revealed revealed _ StartNewAssessment
             (at_hour deployer 1 10)
             (emitted StartNewAssessment (at_hour deployer 1 10) revealed));
      [apply steps_refl|].
    apply exec_goes. vm_compute. reflexivity. }
  assert (Hok : approved_of (assessment_at revealed 1) alice = true)
    by (vm_compute; reflexivity).
  split; [exact Hsteps|]. split; [exact Hok|].
  exact (approvals_never_revoked revealed _ 1 alice Hsteps Hok).
Defined.

Lemma new_cycle_idle_witness :
  reachable requested /\
  exec first_callback (at_hour oracle 0 21) requested =
    inr (storage_after first_callback (at_hour oracle 0 21) requested,
         emitted first_callback (at_hour oracle 0 21) requested) /\
  getCurrentAssessmentInfo
    (storage_after first_callback (at_hour oracle 0 21) requested) =
    (currentAssessmentId requested + 1, false, false, 0, 0).
Proof.
  assert (H : exec first_callback (at_hour oracle 0 21) requested =
              inr (storage_after first_callback (at_hour oracle 0 21) requested,
                   emitted first_callback (at_hour oracle 0 21) requested)).
  { apply exec_goes. vm_compute. reflexivity. }
  split; [exact reachable_requested|]. split; [exact H|].
  exact (proj1 (proj2 (new_cycle_idle requested _ 0 50 (mock_proof 0 50)
                         (at_hour oracle 0 21) _ reachable_requested H))).
Defined.

Lemma submit_then_status_witness :
  reachable started /\
  exec first_submission (at_hour alice 0 11) started =
    inr (storage_after first_submission (at_hour alice 0 11) started,
         emitted first_submission (at_hour alice 0 11) started) /\
  getApplicantStatus
    (storage_after first_submission (at_hour alice 0 11) started)
    (msg_sender (at_hour alice 0 11)) =
    (true, block_timestamp (at_hour alice 0 11), false).
Proof.
  assert (H : exec first_submission (at_hour alice 0 11) started =
              inr (storage_after first_submission (at_hour alice 0 11) started,
                   emitted first_submission (at_hour alice 0 11) started)).
  { apply exec_goes. vm_compute. reflexivity. }
  split; [exact reachable_started|]. split; [exact H|].
  exact (proj1 (submit_then_status started _ 800 100000 10 20
                  (at_hour alice 0 11) _ reachable_started H)).
Defined.

Lemma last_identifier_overflow_witness :
  currentAssessmentId last_cycle = UINT32_MAX /\
  checkSignatures 0 50 (mock_proof 0 50) (fhe last_cycle)
    = Some (fhe last_cycle) /\
  exec first_callback (at_hour oracle 0 21) last_cycle = inl Panic_overflow.
Proof.
  assert (Hmax : currentAssessmentId last_cycle = UINT32_MAX) by reflexivity.
  assert (Hsig : checkSignatures 0 50 (mock_proof 0 50) (fhe last_cycle)
                 = Some (fhe last_cycle)) by (vm_compute; reflexivity).
  split; [exact Hmax|]. split; [exact Hsig|].
  exact (proj2 (proj2 (last_identifier_overflow last_cycle 0 50
                         (mock_proof 0 50) (at_hour oracle 0 21) Hmax))
           _ Hsig).
Defined.

Lemma callback_on_unstarted_cycle_witness :
  reachable revealed /\
  thresholdSet (assessment_at revealed (currentAssessmentId revealed)) = false /\
  checkSignatures 0 50 (mock_proof 0 50) (fhe revealed) = Some (fhe revealed) /\
  currentAssessmentId revealed < UINT32_MAX /\
  exists st',
    exec first_callback (at_hour oracle 0 22) revealed =
      inr (st', [AssessmentCompleted (currentAssessmentId revealed) 0;
                 RiskLevelRevealed (currentAssessmentId revealed) 50]).
Proof.
  assert (Hu : thresholdSet (assessment_at revealed (currentAssessmentId revealed))
               = false) by (vm_compute; reflexivity).
  assert (Hsig : checkSignatures 0 50 (mock_proof 0 50) (fhe revealed)
                 = Some (fhe revealed)) by (vm_compute; reflexivity).
  assert (Hmax : currentAssessmentId revealed < UINT32_MAX)
    by (vm_compute; reflexivity).
  split; [exact reachable_revealed|]. split; [exact Hu|].
  split; [exact Hsig|]. split; [exact Hmax|].
  destruct (callback_on_unstarted_cycle revealed 0 50 (mock_proof 0 50)
              (at_hour oracle 0 22) (fhe revealed) reachable_revealed Hu Hsig
              Hmax) as (st' & Hexec & _).
  exists st'. exact Hexec.
Defined.

Lemma pause_blocks_witness :
  exec PauseCurrentAssessment (at_hour deployer 0 12) submitted =
    inr (storage_after PauseCurrentAssessment (at_hour deployer 0 12) submitted,
         emitted PauseCurrentAssessment (at_hour deployer 0 12) submitted) /\
  exec (SubmitRiskProfile 650 50000 3 40) (at_hour oracle 0 13)
    (storage_after PauseCurrentAssessment (at_hour deployer 0 12) submitted) =
    inl (Require_failed "Assessment window not active") /\
  exec ProcessRiskAssessment (at_hour oracle 0 13)
    (storage_after PauseCurrentAssessment (at_hour deployer 0 12) submitted) =
    inl (Require_failed "Not evaluation time").
Proof.
  assert (H : exec PauseCurrentAssessment (at_hour deployer 0 12) submitted =
              inr (storage_after PauseCurrentAssessment (at_hour deployer 0 12)
                     submitted,
                   emitted PauseCurrentAssessment (at_hour deployer 0 12)
                     submitted)).
  { apply exec_goes. vm_compute. reflexivity. }
  split; [exact H|].
  destruct (pause_blocks submitted _ (at_hour deployer 0 12)
              (at_hour oracle 0 13) _ H) as (Hsub & Hproc & _).
  split; [exact (Hsub 650 50000 3 40)|exact Hproc].
Defined.

Lemma started_cycle_open_witness :
  exec StartNewAssessment (at_hour deployer 0 10) deployed =
    inr (storage_after StartNewAssessment (at_hour deployer 0 10) deployed,
         emitted StartNewAssessment (at_hour deployer 0 10) deployed) /\
  isEvaluationTimeActive
    (storage_after StartNewAssessment (at_hour deployer 0 10) deployed) 72000 =
    negb (isBusinessHours 72000) /\
  succeeds (SubmitRiskProfile 850 35000 50 100) (at_hour alice 0 11)
    (storage_after StartNewAssessment (at_hour deployer 0 10) deployed) = true.
Proof.
  assert (H : exec StartNewAssessment (at_hour deployer 0 10) deployed =
              inr (storage_after StartNewAssessment (at_hour deployer 0 10)
                     deployed,
                   emitted StartNewAssessment (at_hour deployer 0 10) deployed)).
  { apply exec_goes. vm_compute. reflexivity. }
  split; [exact H|].
  destruct (started_cycle_open deployed _ (at_hour deployer 0 10) _ H)
    as (Hwin & _ & Hsub).
  split; [exact (proj2 (Hwin 72000))|].
  apply (Hsub (at_hour alice 0 11) 850 35000 50 100);
    [vm_compute; reflexivity | lia | lia | lia | vm_compute; reflexivity].
Defined.
